(** * flamingpy/simulations.py: the Monte Carlo trial engine and its results ledger

    A shallow embedding of [ec_monte_carlo] and of the CSV ledger written by
    the module's [__main__] block, with the properties of the trial engine
    proved against every possible behaviour of its external collaborators
    ([CVLayer], [apply_noise], [measure_hom], [reduce_macro_and_simulate],
    [correct]). *)

From Stdlib Require Import ZArith String List Lia PrimFloat.
From stdpp Require Import gmap strings list.

Local Open Scope Z_scope.
Local Open Scope string_scope.
Local Open Scope list_scope.

(** ** Python values *)

(** The Python objects the engine handles.  [PyObj] is an object reference,
    identified by the object's identity: the code instance, its graph, a
    [CVLayer] instance, the members of the passive bundle. *)
Inductive pyval : Type :=
| PyNone
| PyBool (b : bool)
| PyInt (z : Z)
| PyFloat (f : float)
| PyStr (s : string)
| PyObj (id : N).

(** A dict literal, as its items in insertion order. *)
Definition pydict : Type := list (string * pyval).

(** A raised exception: its class and message. *)
Record pyexn : Type := PyExn { exn_class : string; exn_msg : string }.

(** What evaluating a Python expression yields: a value, or a raised
    exception. *)
Inductive result (A : Type) : Type :=
| Returned (a : A)
| Raised (e : pyexn).
Arguments Returned {A} a.
Arguments Raised {A} e.

(** ** The engine's interface to its collaborators *)

(** Attribute reads on the code instance: [code.graph] and
    [code.all_syndrome_inds]. *)
Inductive attr : Type :=
| graph (code : pyval)
| all_syndrome_inds (code : pyval).

(** The calls [ec_monte_carlo] makes, with their arguments:
    [CVLayer(code_lattice, p_swap=p_swap)], [CVRHG.apply_noise(cv_noise)],
    [CVRHG.measure_hom("p", code.all_syndrome_inds)],
    [reduce_macro_and_simulate( *passive_objects, p_swap, delta)] with its
    positional arguments as one list, and
    [correct(code=code, decoder=decoder, weight_options=weight_options)]. *)
Inductive collab : Type :=
| CVLayer (code_lattice : pyval) (p_swap : float)
| apply_noise (self : pyval) (model : pydict)
| measure_hom (self : pyval) (quad : string) (inds : pyval)
| reduce_macro_and_simulate (args : list pyval)
| correct (code : pyval) (decoder weight_options : pydict).

(** What a call gives back to the engine: the constructor a new object, the
    decoder its verdict (a Python bool); the engine discards what the other
    three return. *)
Definition reply (c : collab) : Type :=
  match c with
  | CVLayer _ _ => pyval
  | correct _ _ _ => bool
  | _ => unit
  end.

(** ** Programs over the interface *)

(** The engine as a tree of interactions: it returns, raises, reads an
    attribute, or calls a collaborator and goes on with the reply. *)
Inductive prog (A : Type) : Type :=
| Ret (a : A)
| Raise (e : pyexn)
| GetAttr (a : attr) (k : pyval -> prog A)
| Call (c : collab) (k : reply c -> prog A).
Arguments Ret {A} a.
Arguments Raise {A} e.
Arguments GetAttr {A} a k.
Arguments Call {A} c k.

Fixpoint bind {A B : Type} (p : prog A) (f : A -> prog B) : prog B :=
  match p with
  | Ret a => f a
  | Raise e => Raise e
  | GetAttr a k => GetAttr a (fun v => bind (k v) f)
  | Call c k => Call c (fun x => bind (k x) f)
  end.

#[global] Instance prog_ret : MRet prog := @Ret.
#[global] Instance prog_bind : MBind prog := fun A B f p => bind p f.

(** One attribute read, one call. *)
Definition getattr (a : attr) : prog pyval := GetAttr a Ret.
Definition call (c : collab) : prog (reply c) := Call c Ret.

(** Reading a local variable that only one branch of an [if] binds. *)
Definition load_local {A : Type} (name : string) (v : option A) : prog A :=
  match v with
  | Some x => Ret x
  | None => Raise (PyExn "UnboundLocalError" name)
  end.

(** ** ec_monte_carlo *)

(** The locals bound by lines 46-60.  [decoder] and [weight_options] are
    bound on both branches, [code_lattice] and [cv_noise] on the [else]
    branch only. *)
Record locals : Type := Locals {
  code_lattice : option pyval;
  cv_noise : option pydict;
  decoder : pydict;
  weight_options : pydict
}.

(** Lines 46-60: the configuration block. *)
Definition configure (code : pyval) (delta : float)
    (passive_objects : option (list pyval)) : prog locals :=
  match passive_objects with
  | Some _ =>
      mret {| code_lattice := None;
              cv_noise := None;
              decoder := [("outer", PyStr "MWPM")];
              weight_options := [("method", PyStr "blueprint");
                                 ("prob_precomputed", PyBool true)] |}
  | None =>
      g ← getattr (graph code);
      mret {| code_lattice := Some g;
              cv_noise := Some [("noise", PyStr "grn");
                                ("delta", PyFloat delta);
                                ("sampling_order", PyStr "initial")];
              decoder := [("inner", PyStr "basic"); ("outer", PyStr "MWPM")];
              weight_options := [("method", PyStr "blueprint");
                                 ("integer", PyBool false);
                                 ("multiplier", PyInt 1);
                                 ("delta", PyFloat delta)] |}
  end.

(** Lines 64-74: one iteration of the loop, from the running [successes] to
    its next value.  [successes += result] adds a Python bool to an int. *)
Definition trial (code : pyval) (delta p_swap : float)
    (passive_objects : option (list pyval)) (l : locals)
    (successes : Z) : prog Z :=
  (match passive_objects with
   | Some objs =>
       call (reduce_macro_and_simulate (objs ++ [PyFloat p_swap; PyFloat delta]))
   | None =>
       g ← load_local "code_lattice" (code_lattice l);
       CVRHG ← call (CVLayer g p_swap);
       noise ← load_local "cv_noise" (cv_noise l);
       (call (apply_noise CVRHG noise) : prog unit);;
       inds ← getattr (all_syndrome_inds code);
       call (measure_hom CVRHG "p" inds)
   end : prog unit);;
  result ← call (correct code (decoder l) (weight_options l));
  mret (successes + Z.b2z result).

(** [for _ in range(n)]: the body run [n] times on the running count. *)
Fixpoint for_range (n : nat) (body : Z -> prog Z) (successes : Z) : prog Z :=
  match n with
  | O => mret successes
  | S n' => s ← body successes; for_range n' body s
  end.

(** [len(range(trials))]: nothing to iterate when [trials] is not positive. *)
Definition range_len (trials : Z) : nat := Z.to_nat trials.

Definition ec_monte_carlo (code : pyval) (trials : Z) (delta p_swap : float)
    (passive_objects : option (list pyval)) : prog Z :=
  l ← configure code delta passive_objects;
  successes ← for_range (range_len trials)
                (trial code delta p_swap passive_objects l) 0;
  let errors := trials - successes in
  mret errors.

(** ** Running a program against its collaborators *)

(** The collaborators are external: an environment answers attribute reads
    from its current state of type [W], and answers a call with a reply or an
    exception and the state the call leaves behind.  Nothing is assumed of
    the calls: one may raise, and may mutate any object it can reach.  The
    code instance is one that has the two attributes, so reading them gives
    a value and changes nothing. *)
Record env (W : Type) : Type := Env {
  read_attr : attr -> W -> pyval;
  invoke : forall c : collab, W -> result (reply c) * W
}.
Arguments read_attr {W} _ _ _.
Arguments invoke {W} _ _ _.

(** What the environment saw, in order. *)
Inductive entry : Type :=
| EGetAttr (a : attr) (v : pyval)
| ECall (c : collab) (r : result (reply c)).

(** The interactions of a run in order, its outcome and the final state. A
    call that raises ends the run with that exception. *)
Fixpoint run {W : Type} (E : env W) {A : Type} (p : prog A) (w : W)
  : list entry * result A * W :=
  match p with
  | Ret a => ([], Returned a, w)
  | Raise e => ([], Raised e, w)
  | GetAttr a k =>
      let v := read_attr E a w in
      let '(t, r, w') := run E (k v) w in
      (EGetAttr a v :: t, r, w')
  | Call c k =>
      match invoke E c w with
      | (Returned x, w1) =>
          let '(t, r, w') := run E (k x) w1 in
          (ECall c (Returned x) :: t, r, w')
      | (Raised e, w1) => ([ECall c (Raised e)], Raised e, w1)
      end
  end.

Definition trace_of {W A : Type} (x : list entry * result A * W) : list entry :=
  fst (fst x).
Definition outcome_of {W A : Type} (x : list entry * result A * W) : result A :=
  snd (fst x).
Definition world_of {W A : Type} (x : list entry * result A * W) : W :=
  snd x.

(** The state a trace leaves behind: each logged call applied in turn. *)
Definition replay {W : Type} (E : env W) (tr : list entry) (w : W) : W :=
  fold_left
    (fun w e => match e with
                | EGetAttr _ _ => w
                | ECall c _ => snd (invoke E c w)
                end) tr w.

(** ** Reading traces *)

Definition is_call (e : entry) : bool :=
  match e with ECall _ _ => true | EGetAttr _ _ => false end.

Definition is_graph_read (e : entry) : bool :=
  match e with EGetAttr (graph _) _ => true | _ => false end.

(** The calls of the active pipeline only. *)
Definition is_active_only (e : entry) : bool :=
  match e with
  | ECall (CVLayer _ _) _ | ECall (apply_noise _ _) _
  | ECall (measure_hom _ _ _) _ => true
  | _ => false
  end.

Definition is_CVLayer (e : entry) : bool :=
  match e with ECall (CVLayer _ _) _ => true | _ => false end.

Definition is_apply_noise (e : entry) : bool :=
  match e with ECall (apply_noise _ _) _ => true | _ => false end.

Definition is_measure_hom (e : entry) : bool :=
  match e with ECall (measure_hom _ _ _) _ => true | _ => false end.

(** The call of the passive pipeline only. *)
Definition is_reduce (e : entry) : bool :=
  match e with ECall (reduce_macro_and_simulate _) _ => true | _ => false end.

Definition is_correct (e : entry) : bool :=
  match e with ECall (correct _ _ _) _ => true | _ => false end.

(** The exception a logged call raised, if it did. *)
Definition entry_exn (e : entry) : option pyexn :=
  match e with
  | ECall _ (Raised x) => Some x
  | _ => None
  end.

(** The decoder's verdict, for a [correct] call that returned. *)
Definition entry_verdict (e : entry) : option bool :=
  match e with
  | ECall c r =>
      match c return result (reply c) -> option bool with
      | correct _ _ _ => fun r => match r with
                                  | Returned b => Some b
                                  | Raised _ => None
                                  end
      | _ => fun _ => None
      end r
  | EGetAttr _ _ => None
  end.

(** The verdict stream of a run. *)
Definition verdicts (tr : list entry) : list bool := omap entry_verdict tr.

Definition count_true (vs : list bool) : Z :=
  Z.of_nat (length (filter (fun b => b = true) vs)).
Definition count_false (vs : list bool) : Z :=
  Z.of_nat (length (filter (fun b => b = false) vs)).

(** The arguments a logged call carried. *)
Definition reduce_args (e : entry) : option (list pyval) :=
  match e with ECall (reduce_macro_and_simulate args) _ => Some args | _ => None end.

Definition correct_args (e : entry) : option (pyval * pydict * pydict) :=
  match e with ECall (correct c d wo) _ => Some (c, d, wo) | _ => None end.

Definition noise_args (e : entry) : option pydict :=
  match e with ECall (apply_noise _ m) _ => Some m | _ => None end.

(** ** The shape of a run's trace *)

(** A trial that ran to its end with verdict [v]: the passive one is the
    reducer call on the bundle followed by the decoder call; the active one
    builds a layer [h], applies the noise to [h], reads the syndrome
    indices, measures [h] and calls the decoder. *)
Inductive complete_trial (code : pyval) (delta p_swap : float)
    (passive_objects : option (list pyval)) (l : locals)
  : bool -> list entry -> Prop :=
| complete_passive objs v :
    passive_objects = Some objs ->
    complete_trial code delta p_swap passive_objects l v
      [ECall (reduce_macro_and_simulate (objs ++ [PyFloat p_swap; PyFloat delta]))
             (Returned tt);
       ECall (correct code (decoder l) (weight_options l)) (Returned v)]
| complete_active g noise h inds v :
    passive_objects = None ->
    code_lattice l = Some g ->
    cv_noise l = Some noise ->
    complete_trial code delta p_swap passive_objects l v
      [ECall (CVLayer g p_swap) (Returned h);
       ECall (apply_noise h noise) (Returned tt);
       EGetAttr (all_syndrome_inds code) inds;
       ECall (measure_hom h "p" inds) (Returned tt);
       ECall (correct code (decoder l) (weight_options l)) (Returned v)].

(** A trial cut short by the exception [e] of one of its calls. *)
Inductive aborted_trial (code : pyval) (delta p_swap : float)
    (passive_objects : option (list pyval)) (l : locals)
  : pyexn -> list entry -> Prop :=
| abort_reduce objs e :
    passive_objects = Some objs ->
    aborted_trial code delta p_swap passive_objects l e
      [ECall (reduce_macro_and_simulate (objs ++ [PyFloat p_swap; PyFloat delta]))
             (Raised e)]
| abort_passive_correct objs e :
    passive_objects = Some objs ->
    aborted_trial code delta p_swap passive_objects l e
      [ECall (reduce_macro_and_simulate (objs ++ [PyFloat p_swap; PyFloat delta]))
             (Returned tt);
       ECall (correct code (decoder l) (weight_options l)) (Raised e)]
| abort_CVLayer g e :
    passive_objects = None ->
    code_lattice l = Some g ->
    aborted_trial code delta p_swap passive_objects l e
      [ECall (CVLayer g p_swap) (Raised e)]
| abort_apply_noise g noise h e :
    passive_objects = None ->
    code_lattice l = Some g ->
    cv_noise l = Some noise ->
    aborted_trial code delta p_swap passive_objects l e
      [ECall (CVLayer g p_swap) (Returned h);
       ECall (apply_noise h noise) (Raised e)]
| abort_measure_hom g noise h inds e :
    passive_objects = None ->
    code_lattice l = Some g ->
    cv_noise l = Some noise ->
    aborted_trial code delta p_swap passive_objects l e
      [ECall (CVLayer g p_swap) (Returned h);
       ECall (apply_noise h noise) (Returned tt);
       EGetAttr (all_syndrome_inds code) inds;
       ECall (measure_hom h "p" inds) (Raised e)]
| abort_active_correct g noise h inds e :
    passive_objects = None ->
    code_lattice l = Some g ->
    cv_noise l = Some noise ->
    aborted_trial code delta p_swap passive_objects l e
      [ECall (CVLayer g p_swap) (Returned h);
       ECall (apply_noise h noise) (Returned tt);
       EGetAttr (all_syndrome_inds code) inds;
       ECall (measure_hom h "p" inds) (Returned tt);
       ECall (correct code (decoder l) (weight_options l)) (Raised e)].

(** The trace and outcome of a loop of [n] trials entered with [successes]:
    complete trials one after the other, ended by the last of them or by the
    first aborted one. *)
Inductive loop_trace (complete : bool -> list entry -> Prop)
    (aborted : pyexn -> list entry -> Prop)
  : nat -> Z -> list entry -> result Z -> Prop :=
| loop_done successes :
    loop_trace complete aborted O successes [] (Returned successes)
| loop_next n successes v blk tr out :
    complete v blk ->
    loop_trace complete aborted n (successes + Z.b2z v) tr out ->
    loop_trace complete aborted (S n) successes (blk ++ tr) out
| loop_abort n successes e blk :
    aborted e blk ->
    loop_trace complete aborted (S n) successes blk (Raised e).

(** The trace of the configuration block: nothing in passive mode, the one
    read of [code.graph] in active mode. *)
Definition configure_trace (code : pyval)
    (passive_objects : option (list pyval)) (l : locals) : list entry :=
  match passive_objects, code_lattice l with
  | None, Some g => [EGetAttr (graph code) g]
  | _, _ => []
  end.

(** [errors = trials - successes], when the loop got to its end. *)
Definition finish (trials : Z) (r : result Z) : result Z :=
  match r with
  | Returned successes => Returned (trials - successes)
  | Raised e => Raised e
  end.

(** ** The engine as the specification words it *)

(** The mode of a run, selected at entry, with the configuration built for
    it. *)
Inductive run_mode : Type :=
| ACTIVE (structural_graph : pyval) (noise_cfg decoder_cfg weighting : pydict)
| PASSIVE (bundle : list pyval) (decoder_cfg weighting : pydict).

(** Step 1, pipeline selection, once, before looping. *)
Definition select_pipeline (code : pyval) (delta : float)
    (passive_bundle_or_absent : option (list pyval)) : prog run_mode :=
  match passive_bundle_or_absent with
  | Some bundle =>
      mret (PASSIVE bundle
              [("outer", PyStr "MWPM")]
              [("method", PyStr "blueprint"); ("prob_precomputed", PyBool true)])
  | None =>
      g ← getattr (graph code);
      mret (ACTIVE g
              [("noise", PyStr "grn"); ("delta", PyFloat delta);
               ("sampling_order", PyStr "initial")]
              [("inner", PyStr "basic"); ("outer", PyStr "MWPM")]
              [("method", PyStr "blueprint"); ("integer", PyBool false);
               ("multiplier", PyInt 1); ("delta", PyFloat delta)])
  end.

(** Step 2, one trial of the selected pipeline, giving the verdict. *)
Definition pipeline_trial (code : pyval) (delta swap_probability : float)
    (m : run_mode) : prog bool :=
  match m with
  | ACTIVE g noise_cfg decoder_cfg weighting =>
      h ← call (CVLayer g swap_probability);
      (call (apply_noise h noise_cfg) : prog unit);;
      inds ← getattr (all_syndrome_inds code);
      (call (measure_hom h "p" inds) : prog unit);;
      call (correct code decoder_cfg weighting)
  | PASSIVE bundle decoder_cfg weighting =>
      (call (reduce_macro_and_simulate
               (bundle ++ [PyFloat swap_probability; PyFloat delta])) : prog unit);;
      call (correct code decoder_cfg weighting)
  end.

(** Step 2, the loop: a running count of successful verdicts. *)
Fixpoint count_successes (n : nat) (one_trial : prog bool) (successes : Z)
  : prog Z :=
  match n with
  | O => mret successes
  | S n' =>
      one_trial ≫= λ verdict : bool,
        count_successes n' one_trial (if verdict then successes + 1 else successes)
  end.

(** Steps 1 to 3: select, loop, reduce. *)
Definition run_trials (code : pyval) (trials : Z) (delta swap_probability : float)
    (passive_bundle_or_absent : option (list pyval)) : prog Z :=
  m ← select_pipeline code delta passive_bundle_or_absent;
  successes ← count_successes (Z.to_nat trials)
                (pipeline_trial code delta swap_probability m) 0;
  mret (trials - successes).

(** ** Stub collaborators *)

(** A scripted environment in the manner of a test double: the decoder
    answers from [script], one item per call (success once the script has
    run out); each [CVLayer] is a new object; the noise steps
    ([apply_noise] and the reducer) raise [noise_fault] when it is set. *)
Record stub_world : Type := StubWorld {
  next_id : N;
  script : list (result bool);
  noise_fault : option pyexn
}.

Definition stub_noise (w : stub_world) : result unit * stub_world :=
  match noise_fault w with
  | Some e => (Raised e, w)
  | None => (Returned tt, w)
  end.

Definition stub_env : env stub_world :=
  {| read_attr := fun a _ =>
       match a with
       | graph _ => PyObj 1
       | all_syndrome_inds _ => PyObj 2
       end;
     invoke := fun c =>
       match c return stub_world -> result (reply c) * stub_world with
       | CVLayer _ _ => fun w =>
           (Returned (PyObj (next_id w)),
            {| next_id := N.succ (next_id w); script := script w;
               noise_fault := noise_fault w |})
       | apply_noise _ _ => stub_noise
       | measure_hom _ _ _ => fun w => (Returned tt, w)
       | reduce_macro_and_simulate _ => stub_noise
       | correct _ _ _ => fun w =>
           match script w with
           | r :: rest =>
               (r, {| next_id := next_id w; script := rest;
                      noise_fault := noise_fault w |})
           | [] => (Returned true, w)
           end
       end |}.

(** A decoder script of plain verdicts. *)
Definition stub_start (vs : list bool) : stub_world :=
  {| next_id := 10; script := map Returned vs; noise_fault := None |}.

(** The code instance and the passive bundle of the examples. *)
Definition RHG_code : pyval := PyObj 0.
Definition bundle4 : list pyval := [PyObj 3; PyObj 4; PyObj 5; PyObj 6].

(** The default noise parameters of the module: [delta = 0.01], as the
    binary64 number Python reads it as, and [p_swap = 0.5]. *)
Definition delta0 : float := 0x1.47ae147ae147bp-7%float.
Definition p_swap0 : float := 0.5%float.

(** ** The results ledger (lines 136-160) *)

(** A CSV file as the rows written to it, each row the list of its fields
    (how [csv.writer] renders a row as text is not modelled); the file
    system as the files by path.  The directory of the ledger is taken to
    exist. *)
Definition file_name : string := "./flamingpy/sims_data/sims_results.csv".

(** [open(name, "x")]: exclusive creation. *)
Definition open_x (fs : gmap string (list (list pyval))) (name : string)
  : result (gmap string (list (list pyval))) :=
  match fs !! name with
  | Some _ => Raised (PyExn "FileExistsError" name)
  | None => Returned (<[name := []]> fs)
  end.

(** [open(name, "a")]: the file is kept as it is, or created empty. *)
Definition open_a (fs : gmap string (list (list pyval))) (name : string)
  : gmap string (list (list pyval)) :=
  match fs !! name with
  | Some _ => fs
  | None => <[name := []]> fs
  end.

(** [writer.writerow(row)] on the writer of the open file [name]. *)
Definition writerow (fs : gmap string (list (list pyval))) (name : string)
    (row : list pyval) : gmap string (list (list pyval)) :=
  match fs !! name with
  | Some rows => <[name := rows ++ [row]]> fs
  | None => fs
  end.

(** Lines 139-160, with the wall-clock time of the write as [current_time]. *)
Definition write_results (fs : gmap string (list (list pyval)))
    (distance : Z) (ec boundaries : string) (delta p_swap : float)
    (errors trials : Z) (current_time : string)
  : result (gmap string (list (list pyval))) :=
  let opened :=
    match open_x fs file_name with
    | Returned fs' =>
        Returned (writerow fs' file_name
                    [PyStr "distance"; PyStr "ec"; PyStr "boundaries";
                     PyStr "delta"; PyStr "p_swap"; PyStr "errors_py";
                     PyStr "trials"; PyStr "current_time"])
    | Raised e =>
        if String.eqb (exn_class e) "FileExistsError"
        then Returned (open_a fs file_name)
        else Raised e
    end in
  match opened with
  | Returned fs1 =>
      Returned (writerow fs1 file_name
                  [PyInt distance; PyStr ec; PyStr boundaries; PyFloat delta;
                   PyFloat p_swap; PyInt errors; PyInt trials;
                   PyStr current_time])
  | Raised e => Raised e
  end.

(** The header and the data row as the specification words them. *)
Definition ledger_header : list pyval :=
  [PyStr "distance"; PyStr "ec"; PyStr "boundaries"; PyStr "delta";
   PyStr "p_swap"; PyStr "errors"; PyStr "trials"; PyStr "current_time"].

Definition result_row (distance : Z) (ec boundaries : string)
    (delta p_swap : float) (errors trials : Z) (current_time : string)
  : list pyval :=
  [PyInt distance; PyStr ec; PyStr boundaries; PyFloat delta; PyFloat p_swap;
   PyInt errors; PyInt trials; PyStr current_time].

(** The rows of the ledger after a write, when the write went through. *)
Definition ledger_rows (r : result (gmap string (list (list pyval))))
  : option (list (list pyval)) :=
  match r with
  | Returned fs => fs !! file_name
  | Raised _ => None
  end.

(** ** Auxiliary notions for the statements *)

(** The locals after the configuration block, given what [code.graph] read. *)
Definition engine_locals (delta : float) (passive_objects : option (list pyval))
    (g : pyval) : locals :=
  match passive_objects with
  | Some _ =>
      Locals None None [("outer", PyStr "MWPM")]
        [("method", PyStr "blueprint"); ("prob_precomputed", PyBool true)]
  | None =>
      Locals (Some g)
        (Some [("noise", PyStr "grn"); ("delta", PyFloat delta);
               ("sampling_order", PyStr "initial")])
        [("inner", PyStr "basic"); ("outer", PyStr "MWPM")]
        [("method", PyStr "blueprint"); ("integer", PyBool false);
         ("multiplier", PyInt 1); ("delta", PyFloat delta)]
  end.

Definition count_if (f : entry -> bool) (tr : list entry) : nat :=
  length (List.filter f tr).

(** No call of the trace raised. *)
Definition all_returned (tr : list entry) : Prop :=
  Forall (fun e => entry_exn e = None) tr.

(** The [CVLayer] object a logged constructor call returned. *)
Definition layer_built (e : entry) : option pyval :=
  match e with
  | ECall c r =>
      match c return result (reply c) -> option pyval with
      | CVLayer _ _ => fun r => match r with
                                | Returned h => Some h
                                | Raised _ => None
                                end
      | _ => fun _ => None
      end r
  | EGetAttr _ _ => None
  end.

(** The arguments of a logged constructor call. *)
Definition layer_args (e : entry) : option (pyval * float) :=
  match e with ECall (CVLayer g p) _ => Some (g, p) | _ => None end.

(** The discipline of the physical-state handles along a trace, [current]
    being the layer of the trial under way: a layer is built only when none
    is held, the noise and the measurement are applied to the layer held,
    and the decoder call, which ends the trial, lets it go. *)
Fixpoint fresh_layers (current : option pyval) (tr : list entry) : Prop :=
  match tr with
  | [] => True
  | e :: rest =>
      match e with
      | ECall (CVLayer _ _) _ =>
          current = None /\ fresh_layers (layer_built e) rest
      | ECall (apply_noise h _) _ | ECall (measure_hom h _ _) _ =>
          current = Some h /\ fresh_layers current rest
      | ECall (correct _ _ _) _ => fresh_layers None rest
      | _ => fresh_layers current rest
      end
  end.

(** The locals of the engine and the mode of the specification hold the
    same configuration. *)
Definition mode_agrees (passive_objects : option (list pyval)) (l : locals)
    (m : run_mode) : Prop :=
  match passive_objects, m with
  | Some objs, PASSIVE bundle decoder_cfg weighting =>
      bundle = objs /\ decoder_cfg = decoder l /\ weighting = weight_options l
  | None, ACTIVE g noise_cfg decoder_cfg weighting =>
      code_lattice l = Some g /\ cv_noise l = Some noise_cfg
      /\ decoder_cfg = decoder l /\ weighting = weight_options l
  | _, _ => False
  end.

(** ** The main block (lines 79-134) *)

(** What [parser.parse_args()] gives: the positionals converted as lines
    84-89 declare them, and the last one as the string on the command line,
    before the [type=bool] of line 90 is applied to it. *)
Record namespace : Type := Namespace {
  ns_distance : Z;
  ns_ec : string;
  ns_boundaries : string;
  ns_delta : float;
  ns_p_swap : float;
  ns_trials : Z;
  ns_passive : string
}.

(** The seven parameters of a run, after lines 80-113. *)
Record run_args : Type := RunArgs {
  arg_distance : Z;
  arg_ec : string;
  arg_boundaries : string;
  arg_delta : float;
  arg_p_swap : float;
  arg_trials : Z;
  arg_passive : bool
}.

(** Python's [bool] on a string: false on the empty string only. *)
Definition bool_of_str (s : string) : bool :=
  match s with
  | EmptyString => false
  | String _ _ => true
  end.

(** The calls of the main block: [parser.parse_args()] on [sys.argv],
    [SurfaceCode(distance, ec, boundaries, alternating_polarity)],
    [index_generator()], [macronize(pad_boundary=...)],
    [adj_generator(sparse=...)], [CVLayer(RHG_lattice)] with the default
    swap probability, and [BS_network(4)]. *)
Inductive main_call : Type :=
| parse_args (argv : list string)
| SurfaceCode (distance : Z) (ec boundaries : string)
| index_generator (self : pyval)
| macronize (self : pyval) (pad_boundary : bool)
| adj_generator (self : pyval) (sparse : bool)
| CVLayer_of (lattice : pyval)
| BS_network (n : Z).

Definition main_reply (c : main_call) : Type :=
  match c with
  | parse_args _ => namespace
  | SurfaceCode _ _ _ | macronize _ _ | CVLayer_of _ | BS_network _ => pyval
  | index_generator _ | adj_generator _ _ => unit
  end.

(** The surroundings of the main block: the collaborators of the engine,
    the calls of the main block itself, and the wall clock, read as
    [datetime.now().time().strftime("%H:%M:%S")]. *)
Record main_env (W : Type) : Type := MainEnv {
  collaborators : env W;
  main_invoke : forall c : main_call, W -> result (main_reply c) * W;
  clock : W -> string
}.
Arguments collaborators {W} _.
Arguments main_invoke {W} _ _ _.
Arguments clock {W} _ _.

(** What the surroundings saw of the main block: what it printed, the
    attribute it read, its calls, the interactions of the engine, and the
    time it read. *)
Inductive main_entry : Type :=
| MPrint (argv : list string)
| MGetAttr (a : attr) (v : pyval)
| MCall (c : main_call) (r : result (main_reply c))
| MEngine (e : entry)
| MClock (t : string).

(** A step of the main block, on the state of the collaborators and the
    file system. *)
Definition act (W A : Type) : Type :=
  W * gmap string (list (list pyval)) ->
  list main_entry * result A * (W * gmap string (list (list pyval))).

Definition act_ret {W A : Type} (a : A) : act W A :=
  fun st => ([], Returned a, st).

Definition act_raise {W A : Type} (e : pyexn) : act W A :=
  fun st => ([], Raised e, st).

Definition act_bind {W A B : Type} (m : act W A) (f : A -> act W B) : act W B :=
  fun st =>
    match m st with
    | (t1, Returned a, st1) =>
        let '(t2, r, st2) := f a st1 in (t1 ++ t2, r, st2)
    | (t1, Raised e, st1) => (t1, Raised e, st1)
    end.

#[global] Instance act_mret {W : Type} : MRet (act W) := @act_ret W.
#[global] Instance act_mbind {W : Type} : MBind (act W) :=
  fun A B f m => act_bind m f.

Definition main_print {W : Type} (argv : list string) : act W unit :=
  fun st => ([MPrint argv], Returned tt, st).

Definition main_getattr {W : Type} (M : main_env W) (a : attr) : act W pyval :=
  fun st =>
    let v := read_attr (collaborators M) a st.1 in
    ([MGetAttr a v], Returned v, st).

Definition main_do {W : Type} (M : main_env W) (c : main_call)
  : act W (main_reply c) :=
  fun st =>
    match main_invoke M c st.1 with
    | (r, w1) => ([MCall c r], r, (w1, st.2))
    end.

(** A call of the engine from the main block. *)
Definition engine {W A : Type} (M : main_env W) (p : prog A) : act W A :=
  fun st =>
    match run (collaborators M) p st.1 with
    | (t, r, w1) => (map MEngine t, r, (w1, st.2))
    end.

(** Reading a module-level name that only one branch binds. *)
Definition load_global {W A : Type} (name : string) (v : option A) : act W A :=
  match v with
  | Some x => act_ret x
  | None => act_raise (PyExn "NameError" name)
  end.

(** Lines 80-113: the parameters from the command line, or the defaults. *)
Definition read_args {W : Type} (M : main_env W) (argv : list string)
  : act W run_args :=
  if negb (Nat.eqb (length argv) 1) then
    main_print argv;;
    args ← main_do M (parse_args argv);
    mret {| arg_distance := ns_distance args;
            arg_ec := ns_ec args;
            arg_boundaries := ns_boundaries args;
            arg_delta := ns_delta args;
            arg_p_swap := ns_p_swap args;
            arg_trials := ns_trials args;
            arg_passive := bool_of_str (ns_passive args) |}
  else
    mret {| arg_distance := 2;
            arg_ec := "primal";
            arg_boundaries := "open";
            arg_delta := delta0;
            arg_p_swap := p_swap0;
            arg_trials := 100;
            arg_passive := true |}.

(** Lines 136-160, after the run: the time is read and the row logged. *)
Definition log_results {W : Type} (M : main_env W) (a : run_args) (errors : Z)
  : act W unit :=
  fun st =>
    let current_time := clock M st.1 in
    match write_results st.2 (arg_distance a) (arg_ec a) (arg_boundaries a)
            (arg_delta a) (arg_p_swap a) errors (arg_trials a) current_time with
    | Returned fs' => ([MClock current_time], Returned tt, (st.1, fs'))
    | Raised e => ([MClock current_time], Raised e, st)
    end.

(** Lines 115-160: the code, the passive bundle when [passive] holds, the
    Monte Carlo run, the ledger. *)
Definition simulate {W : Type} (M : main_env W) (a : run_args) : act W unit :=
  RHG_code ← main_do M (SurfaceCode (arg_distance a) (arg_ec a) (arg_boundaries a));
  RHG_lattice ← main_getattr M (graph RHG_code);
  (main_do M (index_generator RHG_lattice) : act W unit);;
  passive_objects ←
    (if arg_passive a then
       let pad_bool := negb (String.eqb (arg_boundaries a) "periodic") in
       RHG_macro ← main_do M (macronize RHG_lattice pad_bool);
       (main_do M (index_generator RHG_macro) : act W unit);;
       (main_do M (adj_generator RHG_macro true) : act W unit);;
       CVRHG_reduced ← main_do M (CVLayer_of RHG_lattice);
       bs_network ← main_do M (BS_network 4);
       mret (Some [RHG_macro; RHG_lattice; CVRHG_reduced; bs_network])
     else mret None);
  objs ← load_global "passive_objects" passive_objects;
  errors ← engine M (ec_monte_carlo RHG_code (arg_trials a) (arg_delta a)
                       (arg_p_swap a) (Some objs));
  log_results M a errors.

Definition main {W : Type} (M : main_env W) (argv : list string) : act W unit :=
  a ← read_args M argv;
  simulate M a.

(** ** Further notions for the statements *)

(** The calls that begin a trial: the reducer call of a passive trial, the
    [CVLayer] construction of an active one. *)
Definition starts_trial (passive_objects : option (list pyval)) (e : entry)
  : bool :=
  match passive_objects with
  | Some _ => is_reduce e
  | None => is_CVLayer e
  end.

(** One for a run that raised, nothing for one that returned. *)
Definition raised_one {A : Type} (r : result A) : nat :=
  match r with
  | Raised _ => 1
  | Returned _ => 0
  end.

(** The outcome of a loop moved by [d] successes counted beforehand. *)
Definition shift_count {W : Type} (d : Z) (x : list entry * result Z * W)
  : list entry * result Z * W :=
  match x with
  | (t, Returned s, w) => (t, Returned (d + s), w)
  | (t, Raised e, w) => (t, Raised e, w)
  end.

(** The arguments of a logged [measure_hom] call. *)
Definition measure_args (e : entry) : option (pyval * string * pyval) :=
  match e with
  | ECall (measure_hom h q inds) _ => Some (h, q, inds)
  | _ => None
  end.

(** Every measurement of the trace is on the quadrature [p] and on the
    syndrome indices read from the code just before it. *)
Definition measures_fresh_syndrome (code : pyval) (tr : list entry) : Prop :=
  forall (i : nat) (en : entry) (h : pyval) (q : string) (inds : pyval),
    tr !! i = Some en ->
    measure_args en = Some (h, q, inds) ->
    q = "p"
    /\ exists j : nat,
         i = S j /\ tr !! j = Some (EGetAttr (all_syndrome_inds code) inds).

(** The values logged by one run of the module. *)
Record logged_run : Type := LoggedRun {
  log_distance : Z;
  log_ec : string;
  log_boundaries : string;
  log_delta : float;
  log_p_swap : float;
  log_errors : Z;
  log_trials : Z;
  log_time : string
}.

Definition logged_row (r : logged_run) : list pyval :=
  [PyInt (log_distance r); PyStr (log_ec r); PyStr (log_boundaries r);
   PyFloat (log_delta r); PyFloat (log_p_swap r); PyInt (log_errors r);
   PyInt (log_trials r); PyStr (log_time r)].

(** Lines 139-160 once per run, for the runs of [rs] one after the other. *)
Fixpoint write_all (fs : gmap string (list (list pyval))) (rs : list logged_run)
  : result (gmap string (list (list pyval))) :=
  match rs with
  | [] => Returned fs
  | r :: rest =>
      match write_results fs (log_distance r) (log_ec r) (log_boundaries r)
              (log_delta r) (log_p_swap r) (log_errors r) (log_trials r)
              (log_time r) with
      | Returned fs' => write_all fs' rest
      | Raised e => Raised e
      end
  end.

(** The header as line 143-152 write it. *)
Definition written_header : list pyval :=
  [PyStr "distance"; PyStr "ec"; PyStr "boundaries"; PyStr "delta";
   PyStr "p_swap"; PyStr "errors_py"; PyStr "trials"; PyStr "current_time"].

(** The interactions of the engine within a trace of the main block. *)
Definition engine_part (t : list main_entry) : list entry :=
  omap (fun me => match me with MEngine e => Some e | _ => None end) t.

(** The calls the main block itself made, by kind. *)
Definition is_main_call (me : main_entry) : bool :=
  match me with MCall _ _ => true | _ => false end.

Definition is_parse_args (me : main_entry) : bool :=
  match me with MCall (parse_args _) _ => true | _ => false end.

Definition is_print (me : main_entry) : bool :=
  match me with MPrint _ => true | _ => false end.

(** The exception a logged interaction of the main block raised. *)
Definition main_entry_exn (me : main_entry) : option pyexn :=
  match me with
  | MCall _ (Raised x) => Some x
  | MEngine e => entry_exn e
  | _ => None
  end.

(** No call of the main block or of the engine raised. *)
Definition main_all_returned (t : list main_entry) : Prop :=
  Forall (fun me => main_entry_exn me = None) t.

(** The interactions of lines 118-132 when every call returns: the code,
    its graph, and the four members of the passive bundle. *)
Definition bundle_setup (a : run_args) (code g macro layer bs : pyval)
  : list main_entry :=
  [MCall (SurfaceCode (arg_distance a) (arg_ec a) (arg_boundaries a))
         (Returned code);
   MGetAttr (graph code) g;
   MCall (index_generator g) (Returned tt);
   MCall (macronize g (negb (String.eqb (arg_boundaries a) "periodic")))
         (Returned macro);
   MCall (index_generator macro) (Returned tt);
   MCall (adj_generator macro true) (Returned tt);
   MCall (CVLayer_of g) (Returned layer);
   MCall (BS_network 4) (Returned bs)].

(** The parts of a run of the main block: its trace, its outcome, the
    file system it leaves. *)
Definition main_trace {W A : Type}
    (x : list main_entry * result A * (W * gmap string (list (list pyval))))
  : list main_entry := x.1.1.
Definition main_outcome {W A : Type}
    (x : list main_entry * result A * (W * gmap string (list (list pyval))))
  : result A := x.1.2.
Definition main_files {W A : Type}
    (x : list main_entry * result A * (W * gmap string (list (list pyval))))
  : gmap string (list (list pyval)) := x.2.2.

(** The engine is asked for the reducer or the decoder. *)
Definition is_passive_call (e : entry) : bool := is_reduce e || is_correct e.

(** A stub of the surroundings of the main block, on the stub collaborators:
    a command line of a script name and seven arguments parses to distance
    [2], [delta0], [p_swap0], three trials and the strings given for [ec],
    [boundaries] and [passive]; any other is refused. *)
Definition stub_fresh (w : stub_world) : result pyval * stub_world :=
  (Returned (PyObj (next_id w)),
   {| next_id := N.succ (next_id w); script := script w;
      noise_fault := noise_fault w |}).

Definition stub_main_env : main_env stub_world :=
  {| collaborators := stub_env;
     main_invoke := fun c =>
       match c return stub_world -> result (main_reply c) * stub_world with
       | parse_args argv => fun w =>
           match argv with
           | [_; _; ec; boundaries; _; _; _; passive] =>
               (Returned (Namespace 2 ec boundaries delta0 p_swap0 3 passive), w)
           | _ => (Raised (PyExn "SystemExit" "2"), w)
           end
       | SurfaceCode _ _ _ => fun w => (Returned RHG_code, w)
       | index_generator _ => fun w => (Returned tt, w)
       | macronize _ _ => stub_fresh
       | adj_generator _ _ => fun w => (Returned tt, w)
       | CVLayer_of _ => stub_fresh
       | BS_network _ => stub_fresh
       end;
     clock := fun _ => "12:00:00" |}.

(** * Properties *)

(** ** Running compound programs *)

Section Engine.
Context {W : Type} (E : env W).

Lemma run_bind {A B : Type} (p : prog A) (f : A -> prog B) (w : W) :
  run E (p ≫= f) w =
  match run E p w with
  | (t1, Returned a, w1) =>
      let '(t2, r, w2) := run E (f a) w1 in (t1 ++ t2, r, w2)
  | (t1, Raised e, w1) => (t1, Raised e, w1)
  end.
Proof.
  change (p ≫= f) with (bind p f).
  revert w; induction p as [a | e | a k IH | c k IH]; intros w; simpl.
  - destruct (run E (f a) w) as [[t r] w']; reflexivity.
  - reflexivity.
  - rewrite IH. destruct (run E (k (read_attr E a w)) w) as [[t [x | e]] w1].
    + destruct (run E (f x) w1) as [[t2 r] w2]; reflexivity.
    + reflexivity.
  - destruct (invoke E c w) as [[x | e] w1]; [| reflexivity].
    rewrite IH. destruct (run E (k x) w1) as [[t [y | e]] w2].
    + destruct (run E (f y) w2) as [[t2 r] w3]; reflexivity.
    + reflexivity.
Qed.

End Engine.

(** ** The shape of every run *)

Section Shape.
Context {W : Type} (E : env W).
Variables (code : pyval) (delta p_swap : float).
Variable passive_objects : option (list pyval).

Lemma run_replay {A : Type} (p : prog A) (w : W) :
  world_of (run E p w) = replay E (trace_of (run E p w)) w.
Proof.
  revert w; induction p as [a | e | a k IH | c k IH]; intros w; simpl;
    try reflexivity.
  - specialize (IH (read_attr E a w) w).
    destruct (run E (k (read_attr E a w)) w) as [[t r] w']. exact IH.
  - destruct (invoke E c w) as [[x | e] w1] eqn:Hc.
    + specialize (IH x w1).
      destruct (run E (k x) w1) as [[t r] w']. unfold replay; simpl.
      rewrite Hc. exact IH.
    + unfold replay; simpl. rewrite Hc. reflexivity.
Qed.

Lemma run_configure (w : W) :
  let l := engine_locals delta passive_objects (read_attr E (graph code) w) in
  run E (configure code delta passive_objects) w
  = (configure_trace code passive_objects l, Returned l, w).
Proof. destruct passive_objects; reflexivity. Qed.

(** One trial either completes with a verdict, which is added to the
    count, or is cut short by the exception of one of its calls. *)
Lemma run_trial (g : pyval) (successes : Z) (w : W) :
  let l := engine_locals delta passive_objects g in
  let x := run E (trial code delta p_swap passive_objects l successes) w in
  (exists v, complete_trial code delta p_swap passive_objects l v (trace_of x)
             /\ outcome_of x = Returned (successes + Z.b2z v))
  \/ (exists e, aborted_trial code delta p_swap passive_objects l e (trace_of x)
                /\ outcome_of x = Raised e).
Proof.
  intros l x; subst x. unfold trial, trace_of, outcome_of.
  destruct passive_objects as [objs |]; simpl.
  - destruct (invoke E (reduce_macro_and_simulate _) w) as [[[] | e] w1].
    + simpl. destruct (invoke E (correct _ _ _) w1) as [[v | e] w2]; simpl.
      * left. exists v. split; [| reflexivity].
        exact (complete_passive code delta p_swap (Some objs) l objs v eq_refl).
      * right. exists e. split; [| reflexivity].
        exact (abort_passive_correct code delta p_swap (Some objs) l objs e eq_refl).
    + right. exists e. split; [| reflexivity].
      exact (abort_reduce code delta p_swap (Some objs) l objs e eq_refl).
  - destruct (invoke E (CVLayer g p_swap) w) as [[h | e] w1]; simpl.
    2:{ right. exists e. split; [| reflexivity].
        exact (abort_CVLayer code delta p_swap None l g e eq_refl eq_refl). }
    destruct (invoke E (apply_noise h _) w1) as [[[] | e] w2]; simpl.
    2:{ right. exists e. split; [| reflexivity].
        exact (abort_apply_noise code delta p_swap None l g _ h e
                 eq_refl eq_refl eq_refl). }
    destruct (invoke E (measure_hom h "p" _) w2) as [[[] | e] w3]; simpl.
    2:{ right. exists e. split; [| reflexivity].
        exact (abort_measure_hom code delta p_swap None l g _ h _ e
                 eq_refl eq_refl eq_refl). }
    destruct (invoke E (correct _ _ _) w3) as [[v | e] w4]; simpl.
    + left. exists v. split; [| reflexivity].
      exact (complete_active code delta p_swap None l g _ h _ v
               eq_refl eq_refl eq_refl).
    + right. exists e. split; [| reflexivity].
      exact (abort_active_correct code delta p_swap None l g _ h _ e
               eq_refl eq_refl eq_refl).
Qed.

Lemma run_for_range (g : pyval) (n : nat) (successes : Z) (w : W) :
  let l := engine_locals delta passive_objects g in
  let x := run E (for_range n (trial code delta p_swap passive_objects l)
                    successes) w in
  loop_trace (complete_trial code delta p_swap passive_objects l)
             (aborted_trial code delta p_swap passive_objects l)
             n successes (trace_of x) (outcome_of x).
Proof.
  intros l. revert successes w. induction n as [| n IH]; intros successes w.
  - simpl. constructor.
  - cbn [for_range]. rewrite run_bind.
    pose proof (run_trial g successes w) as Ht. fold l in Ht. cbv zeta in Ht.
    destruct (run E (trial code delta p_swap passive_objects l successes) w)
      as [[t1 r1] w1].
    unfold trace_of, outcome_of in Ht; simpl in Ht.
    destruct Ht as [(v & Hc & ->) | (e & Ha & ->)].
    + specialize (IH (successes + Z.b2z v) w1). cbv zeta in IH.
      destruct (run E (for_range n _ (successes + Z.b2z v)) w1) as [[t2 r2] w2].
      unfold trace_of, outcome_of in *; simpl in *.
      now apply loop_next with (v := v).
    + unfold trace_of, outcome_of; simpl. now apply loop_abort.
Qed.

(** Every run of the engine: the configuration block, then the loop, then
    [errors = trials - successes]; the state moved by the calls alone. *)
Lemma run_ec_monte_carlo (trials : Z) (w : W) :
  let l := engine_locals delta passive_objects (read_attr E (graph code) w) in
  let x := run E (ec_monte_carlo code trials delta p_swap passive_objects) w in
  exists tr out,
    trace_of x = configure_trace code passive_objects l ++ tr
    /\ outcome_of x = finish trials out
    /\ loop_trace (complete_trial code delta p_swap passive_objects l)
                  (aborted_trial code delta p_swap passive_objects l)
                  (range_len trials) 0 tr out.
Proof.
  intros l. unfold ec_monte_carlo. rewrite run_bind, run_configure.
  fold l. cbv zeta. rewrite run_bind.
  pose proof (run_for_range (read_attr E (graph code) w) (range_len trials) 0 w)
    as Hl. fold l in Hl. cbv zeta in Hl.
  destruct (run E (for_range (range_len trials) _ 0) w) as [[t r] w1].
  unfold trace_of, outcome_of in Hl; simpl in Hl.
  exists t, r. destruct r as [s | e]; simpl;
    unfold trace_of, outcome_of; simpl; rewrite ?app_nil_r; auto.
Qed.

End Shape.

(** ** Counting over traces *)

Lemma count_if_app (f : entry -> bool) (t1 t2 : list entry) :
  count_if f (t1 ++ t2) = (count_if f t1 + count_if f t2)%nat.
Proof. unfold count_if. now rewrite List.filter_app, length_app. Qed.

Lemma verdicts_app (t1 t2 : list entry) :
  verdicts (t1 ++ t2) = verdicts t1 ++ verdicts t2.
Proof. apply omap_app. Qed.

Lemma count_true_cons (v : bool) (vs : list bool) :
  count_true (v :: vs) = Z.b2z v + count_true vs.
Proof.
  unfold count_true. destruct v.
  - rewrite filter_cons_True by reflexivity. rewrite length_cons. simpl Z.b2z. lia.
  - rewrite filter_cons_False by discriminate. simpl. lia.
Qed.

Lemma count_false_cons (v : bool) (vs : list bool) :
  count_false (v :: vs) = Z.b2z (negb v) + count_false vs.
Proof.
  unfold count_false. destruct v.
  - rewrite filter_cons_False by discriminate. simpl. lia.
  - rewrite filter_cons_True by reflexivity. rewrite length_cons. simpl Z.b2z. lia.
Qed.

Lemma count_true_false (vs : list bool) :
  count_true vs + count_false vs = Z.of_nat (length vs).
Proof.
  induction vs as [| v vs IH]; [reflexivity |].
  rewrite count_true_cons, count_false_cons. simpl length.
  destruct v; simpl Z.b2z; lia.
Qed.

Lemma count_true_nonneg (vs : list bool) : 0 <= count_true vs.
Proof. unfold count_true. lia. Qed.

Lemma count_false_nonneg (vs : list bool) : 0 <= count_false vs.
Proof. unfold count_false. lia. Qed.

Lemma count_true_perm (vs vs' : list bool) :
  vs ≡ₚ vs' -> count_true vs = count_true vs'.
Proof.
  induction 1 as [| v l l' _ IH | a b l | l1 l2 l3 _ IH1 _ IH2].
  - reflexivity.
  - rewrite !count_true_cons. lia.
  - rewrite !count_true_cons. lia.
  - congruence.
Qed.

Lemma count_true_all (vs : list bool) :
  Forall (fun v => v = true) vs -> count_true vs = Z.of_nat (length vs).
Proof.
  induction 1 as [| v vs -> _ IH]; [reflexivity |].
  rewrite count_true_cons, IH. simpl. lia.
Qed.

Lemma count_true_none (vs : list bool) :
  Forall (fun v => v = false) vs -> count_true vs = 0.
Proof.
  induction 1 as [| v vs -> _ IH]; [reflexivity |].
  rewrite count_true_cons, IH. reflexivity.
Qed.

Lemma count_true_first (k m : nat) :
  count_true (replicate k true ++ replicate m false) = Z.of_nat k.
Proof.
  induction k as [| k IH]; simpl.
  - apply count_true_none. apply Forall_replicate. reflexivity.
  - rewrite count_true_cons, IH. simpl. lia.
Qed.

(** ** Facts that hold of every loop trace *)

Section LoopFacts.
Variable complete : bool -> list entry -> Prop.
Variable aborted : pyexn -> list entry -> Prop.

Hypothesis complete_verdict : forall v blk,
  complete v blk -> verdicts blk = [v] /\ all_returned blk.
Hypothesis aborted_last : forall e blk,
  aborted e blk ->
  exists pre x, blk = pre ++ [x] /\ entry_exn x = Some e
                /\ is_call x = true /\ all_returned pre.

Lemma loop_returned n s tr s' :
  loop_trace complete aborted n s tr (Returned s') ->
  s' = s + count_true (verdicts tr)
  /\ length (verdicts tr) = n
  /\ all_returned tr.
Proof.
  intros H. remember (Returned s') as out eqn:Hout.
  induction H as [s | n s v blk tr out Hc _ IH | n s e blk Ha].
  - injection Hout as ->. repeat split; [simpl | constructor].
    unfold count_true; simpl. lia.
  - destruct (IH Hout) as (-> & Hlen & Hok).
    destruct (complete_verdict _ _ Hc) as [Hv Hb].
    rewrite verdicts_app, Hv. simpl app. rewrite count_true_cons.
    repeat split; [lia | simpl; now rewrite Hlen |].
    apply Forall_app. now split.
  - discriminate.
Qed.

Lemma loop_raised n s tr e :
  loop_trace complete aborted n s tr (Raised e) ->
  exists pre x, tr = pre ++ [x] /\ entry_exn x = Some e
                /\ is_call x = true /\ all_returned pre.
Proof.
  intros H. remember (Raised e) as out eqn:Hout.
  induction H as [s | n s v blk tr out Hc _ IH | n s e' blk Ha].
  - discriminate.
  - destruct (IH Hout) as (pre & x & -> & Hx & Hcall & Hpre).
    destruct (complete_verdict _ _ Hc) as [_ Hb].
    exists (blk ++ pre), x. rewrite app_assoc.
    repeat split; try assumption. apply Forall_app. now split.
  - injection Hout as ->. now apply aborted_last.
Qed.

Lemma loop_Forall (P : entry -> Prop) n s tr out :
  (forall v blk, complete v blk -> Forall P blk) ->
  (forall e blk, aborted e blk -> Forall P blk) ->
  loop_trace complete aborted n s tr out -> Forall P tr.
Proof.
  intros HC HA. induction 1 as [| n s v blk tr out Hc _ IH | n s e blk Ha].
  - constructor.
  - apply Forall_app. split; [now apply (HC v) | exact IH].
  - now apply (HA e).
Qed.

Lemma loop_count (f : entry -> bool) (k : nat) n s tr s' :
  (forall v blk, complete v blk -> count_if f blk = k) ->
  loop_trace complete aborted n s tr (Returned s') ->
  count_if f tr = (n * k)%nat.
Proof.
  intros HC H. remember (Returned s') as out eqn:Hout.
  induction H as [s | n s v blk tr out Hc _ IH | n s e blk Ha].
  - reflexivity.
  - rewrite count_if_app, (HC _ _ Hc), (IH Hout). simpl. lia.
  - discriminate.
Qed.

End LoopFacts.

(** ** Facts about the trials of the engine *)

Section TrialFacts.
Variables (code : pyval) (delta p_swap : float).
Variable passive_objects : option (list pyval).
Variable l : locals.

Lemma complete_trial_verdict v blk :
  complete_trial code delta p_swap passive_objects l v blk ->
  verdicts blk = [v] /\ all_returned blk.
Proof. destruct 1; split; try reflexivity; repeat constructor. Qed.

Lemma aborted_trial_last e blk :
  aborted_trial code delta p_swap passive_objects l e blk ->
  exists pre x, blk = pre ++ [x] /\ entry_exn x = Some e
                /\ is_call x = true /\ all_returned pre.
Proof.
  destruct 1;
    [ eexists [], _ | eexists [_], _ | eexists [], _ | eexists [_], _
    | eexists [_; _; _], _ | eexists [_; _; _; _], _ ];
    (split; [reflexivity |]); repeat split; repeat constructor.
Qed.

End TrialFacts.

Section EngineFacts.
Context {W : Type} (E : env W).
Variables (code : pyval) (trials : Z) (delta p_swap : float).
Variable passive_objects : option (list pyval).
Variable w : W.

Let x := run E (ec_monte_carlo code trials delta p_swap passive_objects) w.
Let l := engine_locals delta passive_objects (read_attr E (graph code) w).

Lemma configure_trace_quiet :
  verdicts (configure_trace code passive_objects l) = []
  /\ all_returned (configure_trace code passive_objects l)
  /\ Forall (fun e => is_call e = false) (configure_trace code passive_objects l).
Proof.
  unfold l, configure_trace. destruct passive_objects; simpl;
    repeat split; repeat constructor.
Qed.

(** A run that returns made every trial, raised nowhere, and returns
    [trials] less the successes among the verdicts. *)
Lemma engine_returned errors :
  outcome_of x = Returned errors ->
  errors = trials - count_true (verdicts (trace_of x))
  /\ length (verdicts (trace_of x)) = range_len trials
  /\ all_returned (trace_of x).
Proof.
  destruct (run_ec_monte_carlo E code delta p_swap passive_objects trials w)
    as (tr & out & Htr & Hout & Hloop).
  fold x in Htr, Hout. fold l in Htr, Hloop.
  intros Hx. rewrite Hx in Hout. destruct out as [s |]; [| discriminate].
  injection Hout as ->.
  apply (loop_returned _ _ (complete_trial_verdict _ _ _ _ _)) in Hloop.
  destruct Hloop as (-> & Hlen & Hok).
  destruct configure_trace_quiet as (Hv & Hq & _).
  rewrite Htr, verdicts_app, Hv. simpl app.
  repeat split; [assumption |]. apply Forall_app. now split.
Qed.

(** A run that raises stopped at the call that raised, and raises what
    that call raised. *)
Lemma engine_raised e :
  outcome_of x = Raised e ->
  exists pre en, trace_of x = pre ++ [en] /\ entry_exn en = Some e
                 /\ is_call en = true /\ all_returned pre.
Proof.
  destruct (run_ec_monte_carlo E code delta p_swap passive_objects trials w)
    as (tr & out & Htr & Hout & Hloop).
  fold x in Htr, Hout. fold l in Htr, Hloop.
  intros Hx. rewrite Hx in Hout. destruct out as [| e']; [discriminate |].
  injection Hout as ->.
  apply (loop_raised _ _ (complete_trial_verdict _ _ _ _ _)
           (aborted_trial_last _ _ _ _ _)) in Hloop.
  destruct Hloop as (pre & en & -> & Hen & Hcall & Hpre).
  destruct configure_trace_quiet as (_ & Hq & _).
  exists (configure_trace code passive_objects l ++ pre), en.
  rewrite Htr, app_assoc. repeat split; try assumption.
  apply Forall_app. now split.
Qed.

(** What holds of the configuration read and of every entry of every
    trial holds of every entry of the run. *)
Lemma engine_Forall (P : entry -> Prop) :
  Forall P (configure_trace code passive_objects l) ->
  (forall v blk, complete_trial code delta p_swap passive_objects l v blk ->
                 Forall P blk) ->
  (forall e blk, aborted_trial code delta p_swap passive_objects l e blk ->
                 Forall P blk) ->
  Forall P (trace_of x).
Proof.
  intros H0 HC HA.
  destruct (run_ec_monte_carlo E code delta p_swap passive_objects trials w)
    as (tr & out & Htr & _ & Hloop).
  fold x in Htr. fold l in Htr, Hloop. rewrite Htr.
  apply Forall_app. split; [exact H0 |].
  now apply (loop_Forall _ _ P _ _ _ _ HC HA Hloop).
Qed.

(** In a run that returns, a call made [k] times by every trial, and not
    at all by the configuration block, is made [k] times per trial. *)
Lemma engine_count (f : entry -> bool) (k : nat) errors :
  count_if f (configure_trace code passive_objects l) = O ->
  (forall v blk, complete_trial code delta p_swap passive_objects l v blk ->
                 count_if f blk = k) ->
  outcome_of x = Returned errors ->
  count_if f (trace_of x) = (range_len trials * k)%nat.
Proof.
  intros H0 HC Hx.
  destruct (run_ec_monte_carlo E code delta p_swap passive_objects trials w)
    as (tr & out & Htr & Hout & Hloop).
  fold x in Htr, Hout. fold l in Htr, Hloop.
  rewrite Hx in Hout. destruct out as [s |]; [| discriminate].
  rewrite Htr, count_if_app, H0.
  now apply (loop_count _ _ f k _ _ _ _ HC Hloop).
Qed.

End EngineFacts.


(** * Properties of the trial engine *)

Lemma all_returned_last (pre : list entry) (en : entry) (e : pyexn) :
  all_returned (pre ++ [en]) -> entry_exn en = Some e -> False.
Proof.
  intros H He. apply Forall_app in H as [_ H].
  inversion H as [| ? ? Hen _]; subst. congruence.
Qed.

(** A run in which no call raises returns. *)
Lemma engine_total {W : Type} (E : env W) (code : pyval) (trials : Z)
    (delta p_swap : float) (passive_objects : option (list pyval)) (w : W) :
  let x := run E (ec_monte_carlo code trials delta p_swap passive_objects) w in
  all_returned (trace_of x) -> exists errors, outcome_of x = Returned errors.
Proof.
  intros x Hok. destruct (outcome_of x) as [errors | e] eqn:Hx.
  - now exists errors.
  - apply engine_raised in Hx as (pre & en & Htr & Hen & _).
    fold x in Htr. rewrite Htr in Hok.
    destruct (all_returned_last _ _ _ Hok Hen).
Qed.

(** C1: with [trials = 0], for every code, [delta] and [p_swap], in the
    passive and in the active pipeline alike, [ec_monte_carlo] returns [0]
    and calls no collaborator: no [CVLayer], [apply_noise], [measure_hom],
    [reduce_macro_and_simulate] or [correct] call is in the trace (all there
    is, in active mode, is the read of [code.graph]), and the state of the
    collaborators is left as it was. *)
Theorem C1_zero_trials {W : Type} (E : env W) (code : pyval)
    (delta p_swap : float) (passive_objects : option (list pyval)) (w : W) :
  let x := run E (ec_monte_carlo code 0 delta p_swap passive_objects) w in
  outcome_of x = Returned 0
  /\ trace_of x = match passive_objects with
                  | Some _ => []
                  | None => [EGetAttr (graph code) (read_attr E (graph code) w)]
                  end
  /\ Forall (fun e => is_call e = false) (trace_of x)
  /\ world_of x = w.
Proof.
  destruct passive_objects; cbv zeta; simpl;
    repeat split; repeat constructor.
Qed.

(** C10: with a negative [trials], [range(trials)] is empty: no trial runs,
    no collaborator is called, nothing checks the sign, and the engine
    returns [trials] itself, a negative number. *)
Theorem C10_negative_trials {W : Type} (E : env W) (code : pyval) (trials : Z)
    (delta p_swap : float) (passive_objects : option (list pyval)) (w : W) :
  trials < 0 ->
  let x := run E (ec_monte_carlo code trials delta p_swap passive_objects) w in
  outcome_of x = Returned trials
  /\ Forall (fun e => is_call e = false) (trace_of x)
  /\ verdicts (trace_of x) = []
  /\ world_of x = w
  /\ (forall errors, outcome_of x = Returned errors ->
                     errors < 0 /\ ~ (0 <= errors <= trials)).
Proof.
  intros Hneg x.
  assert (Hx : outcome_of x = Returned trials
               /\ Forall (fun e => is_call e = false) (trace_of x)
               /\ verdicts (trace_of x) = []
               /\ world_of x = w).
  { subst x. unfold ec_monte_carlo, range_len.
    replace (Z.to_nat trials) with O by lia.
    destruct passive_objects; simpl; rewrite Z.sub_0_r;
      repeat split; repeat constructor. }
  destruct Hx as (Hout & Hcalls & Hvs & Hw). repeat split; try assumption;
    rewrite Hout in H; injection H as <-; lia.
Qed.

Lemma C10_negative_trials_witness :
  -3 < 0
  /\ outcome_of (run stub_env (ec_monte_carlo RHG_code (-3) delta0 p_swap0 None)
                   (stub_start [true; false]))
     = Returned (-3).
Proof.
  split; [lia |].
  apply (C10_negative_trials stub_env RHG_code (-3) delta0 p_swap0 None
           (stub_start [true; false])); lia.
Defined.

(** C2: for [trials = T > 0] and whatever the collaborators do, so for every
    sequence of decoder verdicts, a run in which no call raises returns, and
    the error count a run returns is between [0] and [T]. *)
Theorem C2_error_count_bounds {W : Type} (E : env W) (code : pyval) (T : Z)
    (delta p_swap : float) (passive_objects : option (list pyval)) (w : W) :
  0 < T ->
  let x := run E (ec_monte_carlo code T delta p_swap passive_objects) w in
  (all_returned (trace_of x) -> exists errors, outcome_of x = Returned errors)
  /\ (forall errors, outcome_of x = Returned errors -> 0 <= errors <= T).
Proof.
  intros HT x. split; [apply engine_total |].
  intros errors Hx. apply engine_returned in Hx as (-> & Hlen & _).
  fold x in Hlen |- *.
  pose proof (count_true_false (verdicts (trace_of x))) as Hsum.
  pose proof (count_true_nonneg (verdicts (trace_of x))).
  pose proof (count_false_nonneg (verdicts (trace_of x))).
  rewrite Hlen in Hsum. unfold range_len in Hsum. lia.
Qed.

Lemma C2_error_count_bounds_witness :
  0 < 3
  /\ outcome_of (run stub_env (ec_monte_carlo RHG_code 3 delta0 p_swap0 None)
                   (stub_start [true; false; true]))
     = Returned 1
  /\ 0 <= 1 <= 3.
Proof.
  split; [lia |]. split; [reflexivity |].
  apply (C2_error_count_bounds stub_env RHG_code 3 delta0 p_swap0 None
           (stub_start [true; false; true])); [lia | reflexivity].
Defined.

(** C3: over [T >= 0] trials, the value returned is [T] less the number of
    success verdicts, which is the number of failure verdicts of the [T]
    verdicts the decoder gave: [0] when every verdict is a success, [T] when
    every one is a failure, [T - k] when the first [k] are successes and the
    others failures, and the same for the verdicts taken in any other
    order. *)
Theorem C3_error_count_is_failures {W : Type} (E : env W) (code : pyval)
    (T : Z) (delta p_swap : float) (passive_objects : option (list pyval))
    (w : W) (errors : Z) :
  0 <= T ->
  let x := run E (ec_monte_carlo code T delta p_swap passive_objects) w in
  outcome_of x = Returned errors ->
  let vs := verdicts (trace_of x) in
  Z.of_nat (length vs) = T
  /\ errors = T - count_true vs
  /\ errors = count_false vs
  /\ (Forall (fun v => v = true) vs -> errors = 0)
  /\ (Forall (fun v => v = false) vs -> errors = T)
  /\ (forall k : nat,
        vs = replicate k true ++ replicate (Z.to_nat T - k) false ->
        errors = T - Z.of_nat k)
  /\ (forall vs', vs' ≡ₚ vs ->
                  errors = T - count_true vs' /\ errors = count_false vs').
Proof.
  intros HT x Hx vs. apply engine_returned in Hx as (Herr & Hlen & _).
  fold x in Herr, Hlen. fold vs in Herr, Hlen. unfold range_len in Hlen.
  assert (HlenZ : Z.of_nat (length vs) = T) by lia.
  pose proof (count_true_false vs) as Hsum.
  repeat split; try lia.
  - intros Hall. rewrite (count_true_all _ Hall) in Herr. lia.
  - intros Hnone. rewrite (count_true_none _ Hnone) in Herr. lia.
  - intros k Hk. rewrite Hk, count_true_first in Herr. exact Herr.
  - rewrite (count_true_perm _ _ H). exact Herr.
  - pose proof (count_true_false vs') as Hsum'.
    rewrite (count_true_perm _ _ H), (Permutation_length H) in Hsum'. lia.
Qed.

Lemma C3_error_count_is_failures_witness :
  0 <= 5
  /\ outcome_of (run stub_env
                   (ec_monte_carlo RHG_code 5 delta0 p_swap0 (Some bundle4))
                   (stub_start [true; true; false; false; false]))
     = Returned 3
  /\ 3 = 5 - Z.of_nat 2.
Proof.
  split; [lia |]. split; [reflexivity |].
  apply (C3_error_count_is_failures stub_env RHG_code 5 delta0 p_swap0
           (Some bundle4) (stub_start [true; true; false; false; false]) 3);
    [lia | reflexivity | reflexivity].
Defined.

(** Closes a goal about the entries or the counts of one trial: the trials
    of the other pipeline are ruled out, the one at hand is a literal. *)
Ltac by_trial :=
  let H := fresh in
  intros ? ? H; destruct H; try discriminate;
  first [reflexivity | repeat constructor].

(** C4: one pipeline per trial.  With a passive bundle, no call of the
    active pipeline ([CVLayer], [apply_noise], [measure_hom]) is in the trace
    of any run, and a run that returns called the reducer once per trial;
    without one, no reducer call is in the trace of any run, and a run that
    returns built, noised and measured one layer per trial. *)
Theorem C4_pipeline_exclusive {W : Type} (E : env W) (code : pyval)
    (trials : Z) (delta p_swap : float)
    (passive_objects : option (list pyval)) (w : W) :
  let x := run E (ec_monte_carlo code trials delta p_swap passive_objects) w in
  match passive_objects with
  | Some _ =>
      Forall (fun e => is_active_only e = false) (trace_of x)
      /\ (forall errors, outcome_of x = Returned errors ->
                         count_if is_reduce (trace_of x) = Z.to_nat trials)
  | None =>
      Forall (fun e => is_reduce e = false) (trace_of x)
      /\ (forall errors, outcome_of x = Returned errors ->
                         count_if is_CVLayer (trace_of x) = Z.to_nat trials
                         /\ count_if is_apply_noise (trace_of x) = Z.to_nat trials
                         /\ count_if is_measure_hom (trace_of x) = Z.to_nat trials)
  end.
Proof.
  intros x. subst x. destruct passive_objects as [objs |].
  - split.
    + apply engine_Forall; [constructor | by_trial | by_trial].
    + intros errors Hx.
      rewrite (engine_count E code trials delta p_swap (Some objs) w
                 is_reduce 1 errors); [unfold range_len; lia | reflexivity | by_trial | exact Hx].
  - split.
    + apply engine_Forall; [repeat constructor | by_trial | by_trial].
    + intros errors Hx.
      rewrite (engine_count E code trials delta p_swap None w
                 is_CVLayer 1 errors); [| reflexivity | by_trial | exact Hx].
      rewrite (engine_count E code trials delta p_swap None w
                 is_apply_noise 1 errors); [| reflexivity | by_trial | exact Hx].
      rewrite (engine_count E code trials delta p_swap None w
                 is_measure_hom 1 errors); [| reflexivity | by_trial | exact Hx].
      unfold range_len. lia.
Qed.

(** ** The engine against the specification's formulation *)

Section Refinement.
Context {W : Type} (E : env W).
Variables (code : pyval) (delta p_swap : float).
Variable passive_objects : option (list pyval).

Lemma configure_selects (w : W) :
  exists l m,
    run E (configure code delta passive_objects) w
    = (configure_trace code passive_objects l, Returned l, w)
    /\ run E (select_pipeline code delta passive_objects) w
      = (configure_trace code passive_objects l, Returned m, w)
    /\ mode_agrees passive_objects l m.
Proof.
  exists (engine_locals delta passive_objects (read_attr E (graph code) w)).
  destruct passive_objects as [objs |]; simpl; eexists; repeat split; reflexivity.
Qed.

(** The per-iteration test of [passive_objects] takes the branch the mode
    stands for, and the locals it reads are bound. *)
Lemma trial_refines (l : locals) (m : run_mode) (successes : Z) (w : W) :
  mode_agrees passive_objects l m ->
  run E (trial code delta p_swap passive_objects l successes) w
  = match run E (pipeline_trial code delta p_swap m) w with
    | (t, Returned v, w1) => (t, Returned (successes + Z.b2z v), w1)
    | (t, Raised e, w1) => (t, Raised e, w1)
    end.
Proof.
  unfold mode_agrees, trial.
  destruct passive_objects as [objs |], m as [g n d wt | b d wt]; try tauto.
  - intros (-> & -> & ->). simpl.
    destruct (invoke E (reduce_macro_and_simulate _) w) as [[[] | e] w1]; simpl;
      [| reflexivity].
    destruct (invoke E (correct _ _ _) w1) as [[v | e] w2]; reflexivity.
  - intros (Hg & Hn & -> & ->). rewrite Hg, Hn. simpl.
    destruct (invoke E (CVLayer g p_swap) w) as [[h | e] w1]; simpl; [| reflexivity].
    destruct (invoke E (apply_noise h n) w1) as [[[] | e] w2]; simpl; [| reflexivity].
    destruct (invoke E (measure_hom h "p" _) w2) as [[[] | e] w3]; simpl;
      [| reflexivity].
    destruct (invoke E (correct _ _ _) w3) as [[v | e] w4]; reflexivity.
Qed.

Lemma loop_refines (l : locals) (m : run_mode) (n : nat) (successes : Z) (w : W) :
  mode_agrees passive_objects l m ->
  run E (for_range n (trial code delta p_swap passive_objects l) successes) w
  = run E (count_successes n (pipeline_trial code delta p_swap m) successes) w.
Proof.
  intros Hm. revert successes w. induction n as [| n IH]; intros successes w.
  - reflexivity.
  - cbn [for_range count_successes]. rewrite !run_bind, (trial_refines _ _ _ _ Hm).
    destruct (run E (pipeline_trial code delta p_swap m) w) as [[t [v | e]] w1];
      [| reflexivity].
    rewrite IH. destruct v; simpl Z.b2z; [reflexivity |].
    now rewrite Z.add_0_r.
Qed.

End Refinement.

(** C5: the pipeline is fixed for the run by the presence of the passive
    bundle alone.  Under every behaviour of the collaborators, from every
    state, [ec_monte_carlo], which tests [passive_objects] in each
    iteration, has the trace, the outcome and the final state of
    [run_trials], which selects the mode once at entry and holds it. *)
Theorem C5_pipeline_fixed_at_entry {W : Type} (E : env W) (code : pyval)
    (trials : Z) (delta p_swap : float)
    (passive_objects : option (list pyval)) (w : W) :
  run E (ec_monte_carlo code trials delta p_swap passive_objects) w
  = run E (run_trials code trials delta p_swap passive_objects) w.
Proof.
  unfold ec_monte_carlo, run_trials, range_len.
  destruct (configure_selects E code delta passive_objects w)
    as (l & m & Hc & Hs & Hm).
  rewrite !run_bind, Hc, Hs, !run_bind, (loop_refines E _ _ _ _ _ m _ _ _ Hm).
  reflexivity.
Qed.

(** ** Configuration, failures and handles *)

Lemma count_if_none (f : entry -> bool) (tr : list entry) :
  Forall (fun e => f e = false) tr -> count_if f tr = O.
Proof.
  unfold count_if. induction 1 as [| e tr He _ IH]; [reflexivity |].
  simpl. now rewrite He.
Qed.

(** Closes a goal about the arguments of the calls of one trial. *)
Ltac by_trial_args :=
  let H := fresh in
  intros ? ? H; destruct H; try discriminate; simplify_eq/=;
  repeat (constructor;
          [ let Heq := fresh in
            simpl; intros ? Heq; try discriminate;
            try (injection Heq as <-); try reflexivity; eauto |]);
  try constructor.

(** C6: the configuration records.  In passive mode the configuration block
    calls and reads nothing and binds decoder [{"outer": "MWPM"}] and
    weighting [{"method": "blueprint", "prob_precomputed": True}]; in active
    mode it reads [code.graph] and binds the noise configuration, the
    decoder [{"inner": "basic", "outer": "MWPM"}] and the weighting
    [{"method": "blueprint", "integer": False, "multiplier": 1, "delta":
    delta}].  Over a whole run [code.graph] is read once in active mode and
    never in passive mode, and every decoder call and every noise
    application carries these records. *)
Theorem C6_configuration_records {W : Type} (E : env W) (code : pyval)
    (delta : float) (passive_objects : option (list pyval)) (w : W) :
  run E (configure code delta passive_objects) w
  = match passive_objects with
    | Some _ =>
        ([],
         Returned
           {| code_lattice := None;
              cv_noise := None;
              decoder := [("outer", PyStr "MWPM")];
              weight_options := [("method", PyStr "blueprint");
                                 ("prob_precomputed", PyBool true)] |},
         w)
    | None =>
        let g := read_attr E (graph code) w in
        ([EGetAttr (graph code) g],
         Returned
           {| code_lattice := Some g;
              cv_noise := Some [("noise", PyStr "grn");
                                ("delta", PyFloat delta);
                                ("sampling_order", PyStr "initial")];
              decoder := [("inner", PyStr "basic"); ("outer", PyStr "MWPM")];
              weight_options := [("method", PyStr "blueprint");
                                 ("integer", PyBool false);
                                 ("multiplier", PyInt 1);
                                 ("delta", PyFloat delta)] |},
         w)
    end
  /\ forall (trials : Z) (p_swap : float),
      let tr := trace_of (run E (ec_monte_carlo code trials delta p_swap
                                   passive_objects) w) in
      count_if is_graph_read tr
        = match passive_objects with Some _ => O | None => 1%nat end
      /\ Forall (fun e => forall a, correct_args e = Some a ->
                   a = match passive_objects with
                       | Some _ =>
                           (code,
                            [("outer", PyStr "MWPM")],
                            [("method", PyStr "blueprint");
                             ("prob_precomputed", PyBool true)])
                       | None =>
                           (code,
                            [("inner", PyStr "basic"); ("outer", PyStr "MWPM")],
                            [("method", PyStr "blueprint");
                             ("integer", PyBool false);
                             ("multiplier", PyInt 1);
                             ("delta", PyFloat delta)])
                       end) tr
      /\ Forall (fun e => forall m, noise_args e = Some m ->
                   m = [("noise", PyStr "grn"); ("delta", PyFloat delta);
                        ("sampling_order", PyStr "initial")]) tr.
Proof.
  split; [destruct passive_objects; reflexivity |].
  intros trials p_swap tr. subst tr. split; [| split].
  - destruct (run_ec_monte_carlo E code delta p_swap passive_objects trials w)
      as (tr & out & -> & _ & Hloop).
    rewrite count_if_app, (count_if_none is_graph_read tr).
    + destruct passive_objects; reflexivity.
    + revert Hloop. apply loop_Forall; by_trial.
  - destruct passive_objects;
      (apply engine_Forall; [repeat constructor; discriminate | by_trial_args ..]).
  - destruct passive_objects;
      (apply engine_Forall; [repeat constructor; discriminate | by_trial_args ..]).
Qed.

(** C8: exceptions propagate.  Whichever call raises ([correct],
    [apply_noise], [measure_hom], [reduce_macro_and_simulate], or the
    [CVLayer] constructor), it is the last interaction of the run, nothing
    being called again after it, and the run raises that very exception
    instead of returning a count; and the engine raises nothing of its own:
    a run that raises [e] ends on a call that raised [e]. *)
Theorem C8_exceptions_propagate {W : Type} (E : env W) (code : pyval)
    (trials : Z) (delta p_swap : float)
    (passive_objects : option (list pyval)) (w : W) :
  let x := run E (ec_monte_carlo code trials delta p_swap passive_objects) w in
  (forall (i : nat) (en : entry) (e : pyexn),
      trace_of x !! i = Some en -> entry_exn en = Some e ->
      outcome_of x = Raised e /\ S i = length (trace_of x))
  /\ (forall e : pyexn,
         outcome_of x = Raised e ->
         exists en, last (trace_of x) = Some en
                    /\ entry_exn en = Some e /\ is_call en = true).
Proof.
  intros x. split.
  - intros i en e Hi He. destruct (outcome_of x) as [errors | e'] eqn:Hx.
    + apply engine_returned in Hx as (_ & _ & Hok). fold x in Hok.
      unfold all_returned in Hok. rewrite Forall_lookup in Hok.
      specialize (Hok i en Hi). congruence.
    + apply engine_raised in Hx as (pre & en' & Htr & Hen' & _ & Hpre).
      fold x in Htr. rewrite Htr in Hi |- *. rewrite length_app. simpl.
      destruct (decide (i < length pre)%nat) as [Hlt | Hge].
      * rewrite lookup_app_l in Hi by exact Hlt.
        unfold all_returned in Hpre. rewrite Forall_lookup in Hpre.
        specialize (Hpre i en Hi). congruence.
      * rewrite lookup_app_r in Hi by lia.
        destruct (i - length pre)%nat as [| j] eqn:Hj; simpl in Hi;
          [| discriminate].
        injection Hi as ->. split; [congruence | lia].
  - intros e Hx. apply engine_raised in Hx as (pre & en & Htr & Hen & Hcall & _).
    fold x in Htr. exists en. rewrite Htr, last_snoc. auto.
Qed.

(** A decoder that raises at the second of three trials. *)
Example decoder_raises_in_second_trial :
  let x := run stub_env (ec_monte_carlo RHG_code 3 delta0 p_swap0 (Some bundle4))
             {| next_id := 10;
                script := [Returned true; Raised (PyExn "ValueError" "no matching")];
                noise_fault := None |} in
  outcome_of x = Raised (PyExn "ValueError" "no matching")
  /\ count_if is_correct (trace_of x) = 2%nat
  /\ length (trace_of x) = 4%nat.
Proof. repeat split. Qed.

(** A noise step that raises in the first trial. *)
Example noise_raises_in_first_trial :
  let x := run stub_env (ec_monte_carlo RHG_code 3 delta0 p_swap0 None)
             {| next_id := 10; script := [];
                noise_fault := Some (PyExn "ValueError" "unknown noise model") |} in
  outcome_of x = Raised (PyExn "ValueError" "unknown noise model")
  /\ count_if is_correct (trace_of x) = 0%nat
  /\ count_if is_apply_noise (trace_of x) = 1%nat.
Proof. repeat split. Qed.

Lemma loop_fresh_layers (code : pyval) (delta p_swap : float)
    (passive_objects : option (list pyval)) (l : locals)
    (n : nat) (s : Z) (tr : list entry) (out : result Z) :
  loop_trace (complete_trial code delta p_swap passive_objects l)
             (aborted_trial code delta p_swap passive_objects l) n s tr out ->
  fresh_layers None tr.
Proof.
  induction 1 as [| n s v blk tr out Hc _ IH | n s e blk Ha].
  - exact I.
  - destruct Hc; simpl; auto.
  - destruct Ha; simpl; auto.
Qed.

(** C9: the engine keeps no state of its own between trials and changes
    nothing by itself.  The state of the collaborators after a run is the
    one their calls produced, one after the other; every reducer call
    carries the members of [passive_objects] as they were passed in,
    followed by [p_swap] and [delta]; the code instance goes to the decoder
    as it was passed in; every [CVLayer] is built from the graph read at
    entry and [p_swap]; the noise and the measurement of a trial are applied
    to the layer built in that trial, which no later trial uses; and a run
    of the active pipeline that returns built one layer per trial. *)
Theorem C9_no_state_across_trials {W : Type} (E : env W) (code : pyval)
    (trials : Z) (delta p_swap : float)
    (passive_objects : option (list pyval)) (w : W) :
  let x := run E (ec_monte_carlo code trials delta p_swap passive_objects) w in
  world_of x = replay E (trace_of x) w
  /\ Forall (fun e => forall args, reduce_args e = Some args ->
               exists objs, passive_objects = Some objs
                            /\ args = objs ++ [PyFloat p_swap; PyFloat delta])
            (trace_of x)
  /\ Forall (fun e => forall a, correct_args e = Some a -> a.1.1 = code)
            (trace_of x)
  /\ Forall (fun e => forall a, layer_args e = Some a ->
               a = (read_attr E (graph code) w, p_swap))
            (trace_of x)
  /\ fresh_layers None (trace_of x)
  /\ (forall errors, passive_objects = None ->
                     outcome_of x = Returned errors ->
                     count_if is_CVLayer (trace_of x) = Z.to_nat trials).
Proof.
  intros x. subst x. split; [apply run_replay |].
  split; [| split; [| split; [| split]]].
  - apply engine_Forall;
      [destruct passive_objects; repeat constructor; discriminate
      | by_trial_args ..].
  - apply engine_Forall;
      [destruct passive_objects; repeat constructor; discriminate
      | by_trial_args ..].
  - apply engine_Forall;
      [destruct passive_objects; repeat constructor; discriminate
      | by_trial_args ..].
  - destruct (run_ec_monte_carlo E code delta p_swap passive_objects trials w)
      as (tr & out & -> & _ & Hloop).
    apply loop_fresh_layers in Hloop.
    destruct passive_objects; simpl; exact Hloop.
  - intros errors -> Hx.
    rewrite (engine_count E code trials delta p_swap None w is_CVLayer 1 errors);
      [unfold range_len; lia | reflexivity | by_trial | exact Hx].
Qed.

(** Two active trials under the stub: two layers, each used by its own
    trial only. *)
Example two_trials_two_layers :
  List.filter is_active_only
    (trace_of (run stub_env (ec_monte_carlo RHG_code 2 delta0 p_swap0 None)
                 (stub_start [true; false])))
  = [ECall (CVLayer (PyObj 1) p_swap0) (Returned (PyObj 10));
     ECall (apply_noise (PyObj 10)
              [("noise", PyStr "grn"); ("delta", PyFloat delta0);
               ("sampling_order", PyStr "initial")]) (Returned tt);
     ECall (measure_hom (PyObj 10) "p" (PyObj 2)) (Returned tt);
     ECall (CVLayer (PyObj 1) p_swap0) (Returned (PyObj 11));
     ECall (apply_noise (PyObj 11)
              [("noise", PyStr "grn"); ("delta", PyFloat delta0);
               ("sampling_order", PyStr "initial")]) (Returned tt);
     ECall (measure_hom (PyObj 11) "p" (PyObj 2)) (Returned tt)].
Proof. reflexivity. Qed.

(** * The results ledger *)

Lemma writerow_lookup (fs : gmap string (list (list pyval))) (name : string)
    (rows : list (list pyval)) (row : list pyval) :
  fs !! name = Some rows ->
  writerow fs name row !! name = Some (rows ++ [row]).
Proof. intros H. unfold writerow. rewrite H. apply lookup_insert_eq. Qed.

Lemma writerow_other (fs : gmap string (list (list pyval))) (name other : string)
    (row : list pyval) :
  other <> name -> writerow fs name row !! other = fs !! other.
Proof.
  intros H. unfold writerow. destruct (fs !! name); [| reflexivity].
  now apply lookup_insert_ne.
Qed.

(** C7, as the code has it: a write to a ledger that does not exist yet
    creates it with the header [distance, ec, boundaries, delta, p_swap,
    errors_py, trials, current_time] followed by the data row; a write to a
    ledger that exists appends the data row to the rows it has and writes no
    header; no other file is touched. *)
Theorem C7_ledger_create_or_append (fs : gmap string (list (list pyval)))
    (distance : Z) (ec boundaries : string) (delta p_swap : float)
    (errors trials : Z) (current_time : string) :
  exists fs',
    write_results fs distance ec boundaries delta p_swap errors trials current_time
    = Returned fs'
    /\ fs' !! file_name
       = Some match fs !! file_name with
              | None =>
                  [[PyStr "distance"; PyStr "ec"; PyStr "boundaries";
                    PyStr "delta"; PyStr "p_swap"; PyStr "errors_py";
                    PyStr "trials"; PyStr "current_time"];
                   [PyInt distance; PyStr ec; PyStr boundaries; PyFloat delta;
                    PyFloat p_swap; PyInt errors; PyInt trials;
                    PyStr current_time]]
              | Some rows =>
                  rows ++ [[PyInt distance; PyStr ec; PyStr boundaries;
                            PyFloat delta; PyFloat p_swap; PyInt errors;
                            PyInt trials; PyStr current_time]]
              end
    /\ forall name, name <> file_name -> fs' !! name = fs !! name.
Proof.
  unfold write_results, open_x, open_a.
  destruct (fs !! file_name) as [rows |] eqn:Hfs.
  - cbn [exn_class]. rewrite String.eqb_refl.
    eexists. split; [reflexivity |]. split.
    + now apply writerow_lookup.
    + intros name Hne. now apply writerow_other.
  - eexists. split; [reflexivity |]. split.
    + rewrite (writerow_lookup _ _ [[PyStr "distance"; PyStr "ec";
                 PyStr "boundaries"; PyStr "delta"; PyStr "p_swap";
                 PyStr "errors_py"; PyStr "trials"; PyStr "current_time"]]);
        [reflexivity |].
      rewrite (writerow_lookup _ _ []); [reflexivity |]. apply lookup_insert_eq.
    + intros name Hne. rewrite !writerow_other by exact Hne.
      now apply lookup_insert_ne.
Qed.

(** C7, as the specification words it, fails on the name of the sixth
    column: the first write to a fresh ledger does not leave the header
    [distance, ec, boundaries, delta, p_swap, errors, trials, current_time]
    before the data row, the column being named [errors_py]. *)
Lemma C7_header_counterexample :
  ledger_rows (write_results ∅ 2 "primal" "open" delta0 p_swap0 30 100 "12:00:00")
  <> Some [ledger_header;
           result_row 2 "primal" "open" delta0 p_swap0 30 100 "12:00:00"]
  /\ (ledger_rows
        (write_results ∅ 2 "primal" "open" delta0 p_swap0 30 100 "12:00:00")
      ≫= head) ≫= (.!! 5%nat)
     = Some (PyStr "errors_py").
Proof.
  split.
  - vm_compute. discriminate.
  - vm_compute. reflexivity.
Qed.

(** Two runs logged one after the other into a fresh ledger: one header,
    then one row per run. *)
Example ledger_round_trip :
  ledger_rows
    (match write_results ∅ 2 "primal" "open" delta0 p_swap0 30 100 "12:00:00" with
     | Returned fs1 =>
         write_results fs1 3 "primal" "periodic" delta0 p_swap0 7 50 "12:00:05"
     | Raised e => Raised e
     end)
  = Some [[PyStr "distance"; PyStr "ec"; PyStr "boundaries"; PyStr "delta";
           PyStr "p_swap"; PyStr "errors_py"; PyStr "trials";
           PyStr "current_time"];
          [PyInt 2; PyStr "primal"; PyStr "open"; PyFloat delta0;
           PyFloat p_swap0; PyInt 30; PyInt 100; PyStr "12:00:00"];
          [PyInt 3; PyStr "primal"; PyStr "periodic"; PyFloat delta0;
           PyFloat p_swap0; PyInt 7; PyInt 50; PyStr "12:00:05"]].
Proof. vm_compute. reflexivity. Qed.

(** * Further properties of the trial engine *)

(** ** Batches of trials *)

Section Batches.
Context {W : Type} (E : env W).
Variables (code : pyval) (delta p_swap : float).
Variable passive_objects : option (list pyval).
Variable l : locals.

Lemma for_range_app (body : Z -> prog Z) (n1 n2 : nat) (s : Z) (w : W) :
  run E (for_range (n1 + n2) body s) w
  = run E (for_range n1 body s ≫= for_range n2 body) w.
Proof.
  revert s w. induction n1 as [| n1 IH]; intros s w.
  - simpl plus. rewrite run_bind. simpl.
    destruct (run E (for_range n2 body s) w) as [[t r] w']. reflexivity.
  - cbn [plus for_range]. rewrite !run_bind.
    destruct (run E (body s) w) as [[t [s1 | e]] w1]; [| reflexivity].
    rewrite IH, run_bind.
    destruct (run E (for_range n1 body s1) w1) as [[t2 [s2 | e]] w2];
      [| reflexivity].
    destruct (run E (for_range n2 body s2) w2) as [[t3 r] w3].
    now rewrite app_assoc.
Qed.

Lemma trial_shift (d s : Z) (w : W) :
  run E (trial code delta p_swap passive_objects l (d + s)) w
  = shift_count d (run E (trial code delta p_swap passive_objects l s) w).
Proof.
  unfold trial, shift_count.
  destruct passive_objects as [objs |]; simpl.
  - destruct (invoke E (reduce_macro_and_simulate _) w) as [[[] | e] w1]; simpl;
      [| reflexivity].
    destruct (invoke E (correct _ _ _) w1) as [[v | e] w2]; simpl;
      [| reflexivity].
    now rewrite Z.add_assoc.
  - destruct (code_lattice l) as [g |]; simpl; [| reflexivity].
    destruct (invoke E (CVLayer g p_swap) w) as [[h | e] w1]; simpl;
      [| reflexivity].
    destruct (cv_noise l) as [noise |]; simpl; [| reflexivity].
    destruct (invoke E (apply_noise h noise) w1) as [[[] | e] w2]; simpl;
      [| reflexivity].
    destruct (invoke E (measure_hom h "p" _) w2) as [[[] | e] w3]; simpl;
      [| reflexivity].
    destruct (invoke E (correct _ _ _) w3) as [[v | e] w4]; simpl;
      [| reflexivity].
    now rewrite Z.add_assoc.
Qed.

Lemma for_range_shift (n : nat) (d s : Z) (w : W) :
  run E (for_range n (trial code delta p_swap passive_objects l) (d + s)) w
  = shift_count d
      (run E (for_range n (trial code delta p_swap passive_objects l) s) w).
Proof.
  revert s w. induction n as [| n IH]; intros s w; [reflexivity |].
  cbn [for_range]. rewrite !run_bind, trial_shift.
  destruct (run E (trial code delta p_swap passive_objects l s) w)
    as [[t [s1 | e]] w1]; simpl; [| reflexivity].
  rewrite IH.
  destruct (run E (for_range n _ s1) w1) as [[t2 [s2 | e]] w2]; reflexivity.
Qed.

End Batches.

(** X1: passive runs compose.  A passive run of [T1 + T2] trials is the run
    of [T1] trials followed, from the state that run leaves, by the run of
    [T2] trials: the traces follow one another, the error counts add up, and
    a batch that raises ends the whole run with its exception. *)
Theorem passive_batches_compose {W : Type} (E : env W) (code : pyval)
    (T1 T2 : Z) (delta p_swap : float) (objs : list pyval) (w : W) :
  0 <= T1 -> 0 <= T2 ->
  run E (ec_monte_carlo code (T1 + T2) delta p_swap (Some objs)) w
  = match run E (ec_monte_carlo code T1 delta p_swap (Some objs)) w with
    | (tr1, Returned e1, w1) =>
        match run E (ec_monte_carlo code T2 delta p_swap (Some objs)) w1 with
        | (tr2, Returned e2, w2) => (tr1 ++ tr2, Returned (e1 + e2), w2)
        | (tr2, Raised e, w2) => (tr1 ++ tr2, Raised e, w2)
        end
    | (tr1, Raised e, w1) => (tr1, Raised e, w1)
    end.
Proof.
  intros H1 H2. unfold ec_monte_carlo, range_len.
  rewrite Z2Nat.inj_add by assumption. cbn [configure].
  rewrite !run_bind. cbn [run mret prog_ret]. rewrite !run_bind.
  rewrite for_range_app, run_bind.
  match goal with
  | |- context [run E (for_range (Z.to_nat T1) ?b 0) w] =>
      destruct (run E (for_range (Z.to_nat T1) b 0) w) as [[t1 [s1 | e]] w1]
  end; [| reflexivity].
  repeat first [rewrite run_bind | progress cbn [run mret prog_ret app]].
  match goal with
  | |- context [run E (for_range (Z.to_nat T2) (trial _ _ _ _ ?l) s1) w1] =>
      pose proof (for_range_shift E code delta p_swap (Some objs) l
                    (Z.to_nat T2) s1 0 w1) as Hs
  end.
  rewrite Z.add_0_r in Hs. rewrite Hs. clear Hs.
  match goal with
  | |- context [run E (for_range (Z.to_nat T2) ?b 0) w1] =>
      destruct (run E (for_range (Z.to_nat T2) b 0) w1) as [[t2 [s2 | e]] w2]
  end; simpl; rewrite ?app_nil_r; [| reflexivity].
  repeat f_equal. lia.
Qed.

Lemma passive_batches_compose_witness :
  0 <= 2 /\ 0 <= 1
  /\ outcome_of (run stub_env
                   (ec_monte_carlo RHG_code (2 + 1) delta0 p_swap0 (Some bundle4))
                   (stub_start [true; false; false]))
     = Returned (1 + 1).
Proof.
  split; [lia |]. split; [lia |].
  rewrite (passive_batches_compose stub_env RHG_code 2 1 delta0 p_swap0 bundle4
             (stub_start [true; false; false])) by lia.
  reflexivity.
Defined.

(** ** Trials begun and trials ended *)

Lemma loop_started (code : pyval) (delta p_swap : float)
    (passive_objects : option (list pyval)) (l : locals)
    (n : nat) (s : Z) (tr : list entry) (out : result Z) :
  loop_trace (complete_trial code delta p_swap passive_objects l)
             (aborted_trial code delta p_swap passive_objects l) n s tr out ->
  count_if (starts_trial passive_objects) tr
  = (length (verdicts tr) + raised_one out)%nat
  /\ (count_if (starts_trial passive_objects) tr <= n)%nat
  /\ (count_if is_correct tr <= count_if (starts_trial passive_objects) tr)%nat.
Proof.
  induction 1 as [| n s v blk tr out Hc _ IH | n s e blk Ha].
  - repeat split; unfold count_if; simpl; lia.
  - rewrite !count_if_app, verdicts_app, length_app.
    destruct IH as (IH1 & IH2 & IH3).
    destruct Hc; subst; unfold starts_trial in *; simpl; repeat split;
      unfold count_if in *; simpl in *; lia.
  - destruct Ha; subst; unfold starts_trial; simpl;
      repeat split; unfold count_if; simpl; lia.
Qed.

(** X2: in every run, returning or raising, the trials begun (reducer calls
    in passive mode, [CVLayer] constructions in active mode) are the trials
    that gave a verdict, and one more exactly when the run raised; they are
    never more than [trials], and the decoder is never called more often
    than a trial is begun. *)
Theorem trials_begun_and_ended {W : Type} (E : env W) (code : pyval)
    (trials : Z) (delta p_swap : float)
    (passive_objects : option (list pyval)) (w : W) :
  let x := run E (ec_monte_carlo code trials delta p_swap passive_objects) w in
  let begun := count_if (starts_trial passive_objects) (trace_of x) in
  begun = (length (verdicts (trace_of x)) + raised_one (outcome_of x))%nat
  /\ (begun <= Z.to_nat trials)%nat
  /\ (count_if is_correct (trace_of x) <= begun)%nat.
Proof.
  intros x begun. subst begun x.
  destruct (run_ec_monte_carlo E code delta p_swap passive_objects trials w)
    as (tr & out & -> & -> & Hloop).
  apply loop_started in Hloop as (H1 & H2 & H3).
  rewrite !count_if_app, verdicts_app, length_app.
  assert (Hcfg : count_if (starts_trial passive_objects)
                   (configure_trace code passive_objects
                      (engine_locals delta passive_objects
                         (read_attr E (graph code) w))) = O
                 /\ count_if is_correct
                      (configure_trace code passive_objects
                         (engine_locals delta passive_objects
                            (read_attr E (graph code) w))) = O
                 /\ verdicts
                      (configure_trace code passive_objects
                         (engine_locals delta passive_objects
                            (read_attr E (graph code) w))) = []).
  { destruct passive_objects; repeat split. }
  destruct Hcfg as (-> & -> & ->). unfold range_len in H2.
  replace (raised_one (finish trials out)) with (raised_one out)
    by (destruct out; reflexivity).
  simpl. lia.
Qed.

(** ** The syndrome indices of a measurement *)

Lemma measures_fresh_syndrome_app (code : pyval) (t1 t2 : list entry) :
  measures_fresh_syndrome code t1 ->
  measures_fresh_syndrome code t2 ->
  measures_fresh_syndrome code (t1 ++ t2).
Proof.
  intros H1 H2 i en h q inds Hi Hm.
  destruct (decide (i < length t1)%nat) as [Hlt | Hge].
  - rewrite lookup_app_l in Hi by exact Hlt.
    destruct (H1 i en h q inds Hi Hm) as (Hq & j & -> & Hj).
    split; [exact Hq |]. exists j. split; [reflexivity |].
    rewrite lookup_app_l by lia. exact Hj.
  - rewrite lookup_app_r in Hi by lia.
    destruct (H2 _ en h q inds Hi Hm) as (Hq & j & Hij & Hj).
    split; [exact Hq |]. exists (length t1 + j)%nat. split; [lia |].
    rewrite lookup_app_r by lia.
    replace (length t1 + j - length t1)%nat with j by lia. exact Hj.
Qed.

(** Goes through the entries of a literal trace one index at a time. *)
Ltac by_index Hi Hm :=
  simpl in Hi;
  repeat (match type of Hi with
          | (_ :: _) !! ?i = Some _ =>
              destruct i; simpl in Hi;
              [ injection Hi as <-; simpl in Hm; try discriminate Hm |]
          end);
  try discriminate Hi.

Lemma measures_fresh_syndrome_trial (code : pyval) (delta p_swap : float)
    (passive_objects : option (list pyval)) (l : locals) (blk : list entry) :
  (exists v, complete_trial code delta p_swap passive_objects l v blk)
  \/ (exists e, aborted_trial code delta p_swap passive_objects l e blk) ->
  measures_fresh_syndrome code blk.
Proof.
  intros [[v H] | [e H]]; destruct H; intros i en h' q inds' Hi Hm;
    by_index Hi Hm;
    injection Hm as <- <- <-; (split; [reflexivity |]);
    exists 2%nat; split; reflexivity.
Qed.

(** X3: the syndrome indices are not kept from one trial to the next.  In
    every run, each [measure_hom] call is on the quadrature [p] and takes the
    value of [code.all_syndrome_inds] read just before it, and the indices
    are read as many times as a measurement is made. *)
Theorem syndrome_indices_read_per_trial {W : Type} (E : env W) (code : pyval)
    (trials : Z) (delta p_swap : float)
    (passive_objects : option (list pyval)) (w : W) :
  let tr := trace_of (run E (ec_monte_carlo code trials delta p_swap
                               passive_objects) w) in
  measures_fresh_syndrome code tr
  /\ count_if (fun e => match e with
                        | EGetAttr (all_syndrome_inds _) _ => true
                        | _ => false
                        end) tr
     = count_if is_measure_hom tr.
Proof.
  intros tr. subst tr.
  destruct (run_ec_monte_carlo E code delta p_swap passive_objects trials w)
    as (tr & out & -> & _ & Hloop).
  split.
  - apply measures_fresh_syndrome_app.
    + destruct passive_objects; intros i en h q inds Hi Hm; by_index Hi Hm.
    + clear -Hloop.
      induction Hloop as [| n s v blk tr out Hc _ IH | n s e blk Ha].
      * intros i en h q inds Hi. discriminate Hi.
      * apply measures_fresh_syndrome_app; [| exact IH].
        eapply measures_fresh_syndrome_trial. left. eauto.
      * eapply measures_fresh_syndrome_trial. right. eauto.
  - rewrite !count_if_app. f_equal.
    + destruct passive_objects; reflexivity.
    + clear -Hloop.
      induction Hloop as [| n s v blk tr out Hc _ IH | n s e blk Ha].
      * reflexivity.
      * rewrite !count_if_app, IH. f_equal. destruct Hc; reflexivity.
      * destruct Ha; reflexivity.
Qed.

(** * Further properties of the results ledger *)

(** One write: the ledger gets the header and the row when it did not
    exist, the row after its rows when it did; no other file changes. *)
Lemma write_results_rows (fs : gmap string (list (list pyval))) (r : logged_run) :
  exists fs',
    write_results fs (log_distance r) (log_ec r) (log_boundaries r)
      (log_delta r) (log_p_swap r) (log_errors r) (log_trials r) (log_time r)
    = Returned fs'
    /\ fs' !! file_name
       = Some match fs !! file_name with
              | None => [written_header; logged_row r]
              | Some rows => rows ++ [logged_row r]
              end
    /\ forall name, name <> file_name -> fs' !! name = fs !! name.
Proof.
  unfold write_results, open_x, open_a.
  destruct (fs !! file_name) as [rows |] eqn:Hfs.
  - cbn [exn_class]. rewrite String.eqb_refl.
    eexists. split; [reflexivity |]. split.
    + now apply writerow_lookup.
    + intros name Hne. now apply writerow_other.
  - eexists. split; [reflexivity |]. split.
    + rewrite (writerow_lookup _ _ [written_header]); [reflexivity |].
      rewrite (writerow_lookup _ _ []); [reflexivity |]. apply lookup_insert_eq.
    + intros name Hne. rewrite !writerow_other by exact Hne.
      now apply lookup_insert_ne.
Qed.

Lemma write_all_existing (rs : list logged_run)
    (fs : gmap string (list (list pyval))) (old : list (list pyval)) :
  fs !! file_name = Some old ->
  exists fs',
    write_all fs rs = Returned fs'
    /\ fs' !! file_name = Some (old ++ map logged_row rs)
    /\ forall name, name <> file_name -> fs' !! name = fs !! name.
Proof.
  revert fs old. induction rs as [| r rs IH]; intros fs old Hfs.
  - exists fs. rewrite app_nil_r. auto.
  - cbn [write_all]. destruct (write_results_rows fs r) as (fs1 & -> & H1 & Hoth).
    rewrite Hfs in H1. destruct (IH fs1 _ H1) as (fs' & -> & H' & Hoth').
    exists fs'. split; [reflexivity |]. split.
    + rewrite H'. cbn [map]. now rewrite <- app_assoc.
    + intros name Hne. now rewrite Hoth', Hoth.
Qed.

(** X4: the ledger of any number of runs.  Logged one after the other where
    no ledger file was, the runs leave the header once, at the top, followed
    by one row per run in the order of the runs; no other file changes. *)
Theorem ledger_of_runs_from_scratch (fs : gmap string (list (list pyval)))
    (r : logged_run) (rs : list logged_run) :
  fs !! file_name = None ->
  exists fs',
    write_all fs (r :: rs) = Returned fs'
    /\ fs' !! file_name = Some (written_header :: map logged_row (r :: rs))
    /\ (forall name, name <> file_name -> fs' !! name = fs !! name).
Proof.
  intros Hfs. cbn [write_all].
  destruct (write_results_rows fs r) as (fs1 & -> & H1 & Hoth).
  rewrite Hfs in H1.
  destruct (write_all_existing rs fs1 _ H1) as (fs' & -> & H' & Hoth').
  exists fs'. split; [reflexivity |]. split; [exact H' |].
  intros name Hne. now rewrite Hoth', Hoth.
Qed.

Lemma ledger_of_runs_from_scratch_witness :
  (∅ : gmap string (list (list pyval))) !! file_name = None
  /\ exists fs',
      write_all ∅ [LoggedRun 2 "primal" "open" delta0 p_swap0 30 100 "12:00:00";
                    LoggedRun 3 "dual" "periodic" delta0 p_swap0 7 50 "12:00:05"]
      = Returned fs'
      /\ length <$> fs' !! file_name = Some 3%nat.
Proof.
  split; [apply lookup_empty |].
  destruct (ledger_of_runs_from_scratch ∅
              (LoggedRun 2 "primal" "open" delta0 p_swap0 30 100 "12:00:00")
              [LoggedRun 3 "dual" "periodic" delta0 p_swap0 7 50 "12:00:05"]
              (lookup_empty _)) as (fs' & Hw & Hrows & _).
  exists fs'. split; [exact Hw |]. rewrite Hrows. reflexivity.
Defined.



(** * Properties of the main block *)

Section MainBlock.
Context {W : Type} (M : main_env W).

Lemma engine_part_app (t1 t2 : list main_entry) :
  engine_part (t1 ++ t2) = engine_part t1 ++ engine_part t2.
Proof. apply omap_app. Qed.

Lemma engine_part_engine (tr : list entry) : engine_part (map MEngine tr) = tr.
Proof. induction tr as [| e tr IH]; [reflexivity |]. simpl. now rewrite IH. Qed.

Lemma main_all_returned_engine (tr : list entry) :
  main_all_returned (map MEngine tr) <-> all_returned tr.
Proof.
  unfold main_all_returned, all_returned. rewrite Forall_map. reflexivity.
Qed.

(** Closes the case of a call of lines 118-132 that raised. *)
Ltac setup_failed :=
  let Hall := fresh in
  left; do 3 eexists; split; [reflexivity |]; split; [reflexivity |];
  left; intros Hall; unfold main_all_returned in Hall;
  repeat (apply Forall_cons in Hall as [? Hall]); discriminate.

(** Every run of lines 115-160: either it stops before the engine is called,
    on a call that raised or, [passive] being false, on the unbound name
    [passive_objects], leaving the file system as it was; or, [passive]
    being true, the bundle is built, the engine runs on it, and the row is
    logged when the engine returns. *)
Lemma simulate_cases (a : run_args) (w : W)
    (fs : gmap string (list (list pyval))) :
  (exists t e w',
      simulate M a (w, fs) = (t, Raised e, (w', fs))
      /\ engine_part t = []
      /\ (~ main_all_returned t
          \/ (arg_passive a = false /\ main_all_returned t
              /\ e = PyExn "NameError" "passive_objects")))
  \/ (arg_passive a = true
      /\ exists code g macro layer bs w1 etr eout w2,
          run (collaborators M)
            (ec_monte_carlo code (arg_trials a) (arg_delta a) (arg_p_swap a)
               (Some [macro; g; layer; bs])) w1
          = (etr, eout, w2)
          /\ match eout with
             | Returned errors =>
                 exists fs',
                   write_results fs (arg_distance a) (arg_ec a)
                     (arg_boundaries a) (arg_delta a) (arg_p_swap a) errors
                     (arg_trials a) (clock M w2)
                   = Returned fs'
                   /\ simulate M a (w, fs)
                      = (bundle_setup a code g macro layer bs
                           ++ map MEngine etr ++ [MClock (clock M w2)],
                         Returned tt, (w2, fs'))
             | Raised e =>
                 simulate M a (w, fs)
                 = (bundle_setup a code g macro layer bs ++ map MEngine etr,
                    Raised e, (w2, fs))
             end).
Proof.
  unfold simulate, mbind, act_mbind, act_bind, main_do, main_getattr,
    load_global, engine, log_results, bundle_setup.
  cbn -[ec_monte_carlo run write_results].
  destruct (main_invoke M (SurfaceCode _ _ _) w) as [[code | e] w1];
    cbn -[ec_monte_carlo run write_results]; [| setup_failed].
  destruct (main_invoke M (index_generator _) w1) as [[[] | e] w2];
    cbn -[ec_monte_carlo run write_results]; [| setup_failed].
  destruct (arg_passive a) eqn:Hp; cbn -[ec_monte_carlo run write_results].
  2:{ left. do 3 eexists. split; [reflexivity |]. split; [reflexivity |].
      right. repeat split. repeat constructor. }
  destruct (main_invoke M (macronize _ _) w2) as [[macro | e] w3];
    cbn -[ec_monte_carlo run write_results]; [| setup_failed].
  destruct (main_invoke M (index_generator macro) w3) as [[[] | e] w4];
    cbn -[ec_monte_carlo run write_results]; [| setup_failed].
  destruct (main_invoke M (adj_generator macro true) w4) as [[[] | e] w5];
    cbn -[ec_monte_carlo run write_results]; [| setup_failed].
  destruct (main_invoke M (CVLayer_of _) w5) as [[layer | e] w6];
    cbn -[ec_monte_carlo run write_results]; [| setup_failed].
  destruct (main_invoke M (BS_network 4) w6) as [[bs | e] w7];
    cbn -[ec_monte_carlo run write_results]; [| setup_failed].
  right. split; [reflexivity |].
  exists code, (read_attr (collaborators M) (graph code) w1), macro, layer, bs, w7.
  destruct (run (collaborators M) (ec_monte_carlo _ _ _ _ _) w7)
    as [[etr [errors | e]] w8] eqn:Hrun;
    cbn -[ec_monte_carlo run write_results].
  - exists etr, (Returned errors), w8. split; [reflexivity |].
    destruct (write_results_rows fs
                (LoggedRun (arg_distance a) (arg_ec a) (arg_boundaries a)
                   (arg_delta a) (arg_p_swap a) errors (arg_trials a)
                   (clock M w8))) as (fs' & Hw & _).
    cbn [log_distance log_ec log_boundaries log_delta log_p_swap log_errors
         log_trials log_time] in Hw.
    exists fs'. split; [exact Hw |]. rewrite Hw. reflexivity.
  - exists etr, (Raised e), w8. split; reflexivity.
Qed.

Lemma main_unfold (argv : list string)
    (st : W * gmap string (list (list pyval))) :
  main M argv st
  = match read_args M argv st with
    | (pre, Returned a, st1) =>
        let '(t, r, st2) := simulate M a st1 in (pre ++ t, r, st2)
    | (pre, Raised e, st1) => (pre, Raised e, st1)
    end.
Proof. reflexivity. Qed.

(** Lines 80-113: no argument, the defaults and no interaction; arguments,
    the command line printed and parsed, [passive] being the truth value of
    the string given for it. *)
Lemma read_args_cases (argv : list string) (w : W)
    (fs : gmap string (list (list pyval))) :
  (length argv = 1%nat
   /\ read_args M argv (w, fs)
      = ([], Returned (RunArgs 2 "primal" "open" delta0 p_swap0 100 true), (w, fs)))
  \/ (length argv <> 1%nat
      /\ exists r w1,
          main_invoke M (parse_args argv) w = (r, w1)
          /\ read_args M argv (w, fs)
             = ([MPrint argv; MCall (parse_args argv) r],
                match r with
                | Returned ns =>
                    Returned (RunArgs (ns_distance ns) (ns_ec ns)
                                (ns_boundaries ns) (ns_delta ns) (ns_p_swap ns)
                                (ns_trials ns) (bool_of_str (ns_passive ns)))
                | Raised e => Raised e
                end, (w1, fs))).
Proof.
  unfold read_args. destruct (Nat.eqb (length argv) 1) eqn:Hlen.
  - left. apply Nat.eqb_eq in Hlen. auto.
  - right. apply Nat.eqb_neq in Hlen. split; [exact Hlen |].
    unfold mbind, act_mbind, act_bind, main_print, main_do. cbn.
    destruct (main_invoke M (parse_args argv) w) as [[ns | e] w1];
      eexists _, _; split; reflexivity.
Qed.

(** The trace of a passive run of the engine holds reducer and decoder
    calls only. *)
Lemma passive_run_calls (code : pyval) (trials : Z) (delta p_swap : float)
    (objs : list pyval) (w : W) :
  Forall (fun e => is_passive_call e = true)
    (trace_of (run (collaborators M)
                 (ec_monte_carlo code trials delta p_swap (Some objs)) w)).
Proof. apply engine_Forall; [constructor | by_trial | by_trial]. Qed.

(** Every run of the main block stops before the engine, the file system
    untouched, or runs the engine on a bundle of four built by lines
    118-132. *)
Lemma main_cases (argv : list string) (w : W)
    (fs : gmap string (list (list pyval))) :
  exists pre a,
    (read_args M argv (w, fs)).1.1 = pre
    /\ engine_part pre = []
    /\ ((exists t e w',
            main M argv (w, fs) = (pre ++ t, Raised e, (w', fs))
            /\ engine_part t = []
            /\ (main_all_returned (pre ++ t) ->
                (read_args M argv (w, fs)).1.2 = Returned a
                /\ arg_passive a = false
                /\ e = PyExn "NameError" "passive_objects"))
        \/ (exists w0 code g macro layer bs w1 etr eout w2,
               read_args M argv (w, fs) = (pre, Returned a, (w0, fs))
               /\ main_all_returned pre
               /\ arg_passive a = true
               /\ run (collaborators M)
                    (ec_monte_carlo code (arg_trials a) (arg_delta a)
                       (arg_p_swap a) (Some [macro; g; layer; bs])) w1
                  = (etr, eout, w2)
               /\ match eout with
                  | Returned errors =>
                      exists fs',
                        write_results fs (arg_distance a) (arg_ec a)
                          (arg_boundaries a) (arg_delta a) (arg_p_swap a)
                          errors (arg_trials a) (clock M w2)
                        = Returned fs'
                        /\ main M argv (w, fs)
                           = (pre ++ bundle_setup a code g macro layer bs
                                ++ map MEngine etr ++ [MClock (clock M w2)],
                              Returned tt, (w2, fs'))
                  | Raised e =>
                      main M argv (w, fs)
                      = (pre ++ bundle_setup a code g macro layer bs
                           ++ map MEngine etr,
                         Raised e, (w2, fs))
                  end)).
Proof.
  rewrite main_unfold.
  destruct (read_args_cases argv w fs)
    as [(Hlen & Hr) | (Hlen & r & w1 & Hinv & Hr)]; rewrite Hr; cbn [fst snd].
  - eexists _, _. split; [reflexivity |]. split; [reflexivity |].
    destruct (simulate_cases (RunArgs 2 "primal" "open" delta0 p_swap0 100 true)
                w fs)
      as [(t & e & w' & Hs & He & Hwhy)
         | (Hp & code & g & macro & layer & bs & w2 & etr & eout & w3 & Hrun & Hs)].
    + left. exists t, e, w'. rewrite Hs. repeat split; try assumption;
        destruct Hwhy as [Hn | (Hp & _ & ->)]; tauto || discriminate || eauto.
    + right. exists w, code, g, macro, layer, bs, w2, etr, eout, w3.
      repeat split; [constructor | exact Hrun |].
      destruct eout as [errors | e].
      * destruct Hs as (fs' & Hw & Hs). exists fs'. now rewrite Hs.
      * now rewrite Hs.
  - destruct r as [ns | e].
    2:{ exists [MPrint argv; MCall (parse_args argv) (Raised e)],
          (RunArgs 0 EmptyString EmptyString delta0 p_swap0 0 false).
        split; [reflexivity |]. split; [reflexivity |].
        left. exists [], e, w1. rewrite app_nil_r.
        repeat split; try reflexivity;
          unfold main_all_returned in H;
          apply Forall_cons in H as [_ H]; apply Forall_cons in H as [H _];
          discriminate H. }
    eexists _, _. split; [reflexivity |]. split; [reflexivity |].
    match goal with
    | |- context [simulate M ?a (w1, fs)] =>
        destruct (simulate_cases a w1 fs)
          as [(t & e & w' & Hs & He & Hwhy)
             | (Hp & code & g & macro & layer & bs & w2 & etr & eout & w3
                & Hrun & Hs)]
    end.
    + left. exists t, e, w'. rewrite Hs. split; [reflexivity |].
      split; [exact He |]. intros Hall.
      destruct Hwhy as [Hn | (Hp & _ & ->)].
      * exfalso. apply Hn. unfold main_all_returned in *.
        apply Forall_app in Hall. tauto.
      * auto.
    + right. exists w1, code, g, macro, layer, bs, w2, etr, eout, w3.
      repeat split; [repeat constructor | exact Hp | exact Hrun |].
      destruct eout as [errors | e].
      * destruct Hs as (fs' & Hw & Hs). exists fs'. now rewrite Hs.
      * now rewrite Hs.
Qed.

End MainBlock.

Lemma engine_part_setup (a : run_args) (code g macro layer bs : pyval) :
  engine_part (bundle_setup a code g macro layer bs) = [].
Proof. reflexivity. Qed.

Lemma passive_call_not_active (e : entry) :
  is_passive_call e = true -> is_active_only e = false.
Proof.
  destruct e as [a v | c r]; [reflexivity |].
  destruct c; unfold is_passive_call; simpl; congruence.
Qed.

(** X6: the main block never runs the active pipeline.  On every command
    line and whatever the collaborators do, the engine, when the main block
    gets to call it, is asked for reducer and decoder calls only: no
    [CVLayer(code_lattice, p_swap)], [apply_noise] or [measure_hom] call and
    no read of the code's attributes is made by it. *)
Theorem main_never_runs_active_pipeline {W : Type} (M : main_env W)
    (argv : list string) (w : W) (fs : gmap string (list (list pyval))) :
  let t := main_trace (main M argv (w, fs)) in
  Forall (fun e => is_passive_call e = true) (engine_part t)
  /\ Forall (fun e => is_active_only e = false) (engine_part t).
Proof.
  intros t.
  assert (H : Forall (fun e => is_passive_call e = true) (engine_part t)).
  { subst t.
    destruct (main_cases M argv w fs)
      as (pre & a & _ & Hpre
          & [(t & e & w' & -> & Ht & _)
            | (w0 & code & g & macro & layer & bs & w1 & etr & eout & w2
               & _ & _ & _ & Hrun & Hm)]).
    - unfold main_trace; simpl. rewrite engine_part_app, Hpre, Ht. constructor.
    - pose proof (passive_run_calls M code (arg_trials a) (arg_delta a)
                    (arg_p_swap a) [macro; g; layer; bs] w1) as Hc.
      rewrite Hrun in Hc. unfold trace_of in Hc; simpl in Hc.
      destruct eout as [errors | e].
      + destruct Hm as (fs' & _ & ->). unfold main_trace; cbn [fst snd].
        rewrite !engine_part_app, Hpre, engine_part_engine, engine_part_setup.
        simpl. now rewrite app_nil_r.
      + rewrite Hm. unfold main_trace; cbn [fst snd].
        rewrite !engine_part_app, Hpre, engine_part_engine, engine_part_setup.
        exact Hc. }
  split; [exact H |].
  eapply Forall_impl; [exact H |]. apply passive_call_not_active.
Qed.

(** X7: an empty [passive] argument stops the main block.  When the command
    line is parsed with the empty string for [passive], [passive] is false,
    the bundle is not built, and the main block raises before the engine is
    called: the engine makes no call, the file system is left as it was,
    and, when no call raised, the exception is the [NameError] of the name
    [passive_objects]. *)
Theorem empty_passive_argument_stops_main {W : Type} (M : main_env W)
    (argv : list string) (ns : namespace) (w w1 : W)
    (fs : gmap string (list (list pyval))) :
  length argv <> 1%nat ->
  main_invoke M (parse_args argv) w = (Returned ns, w1) ->
  ns_passive ns = EmptyString ->
  let x := main M argv (w, fs) in
  (exists e, main_outcome x = Raised e
             /\ (main_all_returned (main_trace x) ->
                 e = PyExn "NameError" "passive_objects"))
  /\ engine_part (main_trace x) = []
  /\ main_files x = fs.
Proof.
  intros Hlen Hinv Hempty x. subst x. rewrite main_unfold.
  destruct (read_args_cases M argv w fs)
    as [(Hlen' & _) | (_ & r & w1' & Hinv' & Hr)]; [contradiction |].
  rewrite Hinv in Hinv'. injection Hinv' as <- <-. rewrite Hr, Hempty.
  match goal with
  | |- context [simulate M ?a (w1, fs)] =>
      destruct (simulate_cases M a w1 fs)
        as [(t & e & w' & Hs & He & Hwhy) | (Hp & _)]
  end; [| discriminate Hp].
  rewrite Hs. unfold main_outcome, main_trace, main_files. cbn [fst snd].
  split; [| split; [| reflexivity]].
  - exists e. split; [reflexivity |]. intros Hall.
    destruct Hwhy as [Hn | (_ & _ & ->)]; [| reflexivity].
    exfalso. apply Hn. unfold main_all_returned in *.
    apply Forall_app in Hall. tauto.
  - rewrite engine_part_app, He. reflexivity.
Qed.

Lemma empty_passive_argument_stops_main_witness :
  length ["simulations.py"; "2"; "primal"; "open"; "0.01"; "0.5"; "3";
          EmptyString] <> 1%nat
  /\ main_outcome
       (main stub_main_env
          ["simulations.py"; "2"; "primal"; "open"; "0.01"; "0.5"; "3";
           EmptyString]
          (stub_start [true; false; true], ∅))
     = Raised (PyExn "NameError" "passive_objects").
Proof.
  split; [discriminate |].
  destruct (empty_passive_argument_stops_main stub_main_env
              ["simulations.py"; "2"; "primal"; "open"; "0.01"; "0.5"; "3";
               EmptyString]
              (Namespace 2 "primal" "open" delta0 p_swap0 3 EmptyString)
              (stub_start [true; false; true]) (stub_start [true; false; true]) ∅
              ltac:(discriminate) eq_refl eq_refl) as ((e & He & Hname) & _).
  rewrite He. f_equal. apply Hname.
  vm_compute. repeat constructor.
Defined.

Lemma bool_of_str_nonempty (s : string) :
  s <> EmptyString -> bool_of_str s = true.
Proof. destruct s; [congruence | reflexivity]. Qed.

Lemma main_all_returned_app (t1 t2 : list main_entry) :
  main_all_returned (t1 ++ t2) <-> main_all_returned t1 /\ main_all_returned t2.
Proof. apply Forall_app. Qed.

(** An engine run that raised is seen in the trace of the main block. *)
Lemma engine_raised_seen {W : Type} (E : env W) (code : pyval) (trials : Z)
    (delta p_swap : float) (passive_objects : option (list pyval)) (w w' : W)
    (etr : list entry) (e : pyexn) :
  run E (ec_monte_carlo code trials delta p_swap passive_objects) w
  = (etr, Raised e, w') ->
  ~ all_returned etr.
Proof.
  intros Hrun Hall.
  pose proof (engine_raised E code trials delta p_swap passive_objects w e) as H.
  rewrite Hrun in H. unfold outcome_of, trace_of in H. cbn [fst snd] in H.
  destruct (H eq_refl) as (pre & en & -> & Hen & _).
  exact (all_returned_last _ _ _ Hall Hen).
Qed.

(** What an engine run that returned made of passive trials. *)
Lemma passive_run_returned {W : Type} (E : env W) (code : pyval) (trials : Z)
    (delta p_swap : float) (objs : list pyval) (w w' : W)
    (etr : list entry) (errors : Z) :
  run E (ec_monte_carlo code trials delta p_swap (Some objs)) w
  = (etr, Returned errors, w') ->
  errors = trials - count_true (verdicts etr)
  /\ length (verdicts etr) = Z.to_nat trials
  /\ count_if is_reduce etr = Z.to_nat trials
  /\ count_if is_correct etr = Z.to_nat trials.
Proof.
  intros Hrun.
  pose proof (engine_returned E code trials delta p_swap (Some objs) w errors) as H.
  pose proof (engine_count E code trials delta p_swap (Some objs) w is_reduce 1
                errors) as Hr.
  pose proof (engine_count E code trials delta p_swap (Some objs) w is_correct 1
                errors) as Hc.
  rewrite Hrun in H, Hr, Hc. unfold outcome_of, trace_of in *.
  cbn [fst snd] in *. unfold range_len in *.
  destruct (H eq_refl) as (-> & Hlen & _).
  rewrite Hr, Hc; [| reflexivity | by_trial | reflexivity
                   | reflexivity | by_trial | reflexivity].
  repeat split; try assumption; lia.
Qed.

(** X8: any other [passive] argument runs the passive pipeline.  When the
    command line is parsed with a string that is not empty for [passive],
    the strings [False] and [0] among them, [passive] is true: if no call
    raises, the main block returns, having had the engine call the reducer
    and the decoder once per trial. *)
Theorem nonempty_passive_argument_runs_passive {W : Type} (M : main_env W)
    (argv : list string) (ns : namespace) (w w1 : W)
    (fs : gmap string (list (list pyval))) :
  length argv <> 1%nat ->
  main_invoke M (parse_args argv) w = (Returned ns, w1) ->
  ns_passive ns <> EmptyString ->
  let x := main M argv (w, fs) in
  main_all_returned (main_trace x) ->
  main_outcome x = Returned tt
  /\ count_if is_reduce (engine_part (main_trace x)) = Z.to_nat (ns_trials ns)
  /\ count_if is_correct (engine_part (main_trace x)) = Z.to_nat (ns_trials ns).
Proof.
  intros Hlen Hinv Hne x. subst x. rewrite main_unfold.
  destruct (read_args_cases M argv w fs)
    as [(Hlen' & _) | (_ & r & w1' & Hinv' & Hr)]; [contradiction |].
  rewrite Hinv in Hinv'. injection Hinv' as <- <-.
  rewrite Hr, (bool_of_str_nonempty _ Hne).
  match goal with
  | |- context [simulate M ?a (w1, fs)] =>
      destruct (simulate_cases M a w1 fs)
        as [(t & e & w' & Hs & He & Hwhy)
           | (_ & code & g & macro & layer & bs & w2 & etr & eout & w3
              & Hrun & Hs)]
  end.
  - rewrite Hs. unfold main_trace, main_outcome. cbn [fst snd].
    intros Hall. apply main_all_returned_app in Hall as [_ Hall].
    destruct Hwhy as [Hn | (Hp & _)]; [contradiction | discriminate Hp].
  - cbn [arg_trials arg_delta arg_p_swap] in Hrun.
    destruct eout as [errors | e].
    + destruct Hs as (fs' & _ & ->). unfold main_trace, main_outcome.
      cbn [fst snd]. intros _.
      rewrite !engine_part_app, engine_part_engine, engine_part_setup.
      cbn [engine_part omap app]. rewrite app_nil_r.
      apply passive_run_returned in Hrun as (_ & _ & Hred & Hcor). auto.
    + rewrite Hs. unfold main_trace, main_outcome. cbn [fst snd].
      intros Hall. exfalso.
      apply main_all_returned_app in Hall as [_ Hall].
      apply main_all_returned_app in Hall as [_ Hall].
      apply main_all_returned_engine in Hall.
      exact (engine_raised_seen _ _ _ _ _ _ _ _ _ _ Hrun Hall).
Qed.

Lemma nonempty_passive_argument_runs_passive_witness :
  length ["simulations.py"; "2"; "primal"; "open"; "0.01"; "0.5"; "3"; "False"]
  <> 1%nat
  /\ "False" <> EmptyString
  /\ count_if is_reduce
       (engine_part
          (main_trace
             (main stub_main_env
                ["simulations.py"; "2"; "primal"; "open"; "0.01"; "0.5"; "3";
                 "False"]
                (stub_start [true; false; true], ∅))))
     = Z.to_nat 3.
Proof.
  split; [discriminate |]. split; [discriminate |].
  apply (nonempty_passive_argument_runs_passive stub_main_env
           ["simulations.py"; "2"; "primal"; "open"; "0.01"; "0.5"; "3"; "False"]
           (Namespace 2 "primal" "open" delta0 p_swap0 3 "False")
           (stub_start [true; false; true]) (stub_start [true; false; true]) ∅);
    [discriminate | reflexivity | discriminate |].
  vm_compute. repeat constructor.
Defined.



(** A passive run never makes more reducer calls than it has trials. *)
Lemma passive_run_reducer_bound {W : Type} (E : env W) (code : pyval)
    (trials : Z) (delta p_swap : float) (objs : list pyval) (w : W) :
  (count_if is_reduce
     (trace_of (run E (ec_monte_carlo code trials delta p_swap (Some objs)) w))
   <= Z.to_nat trials)%nat.
Proof.
  destruct (run_ec_monte_carlo E code delta p_swap (Some objs) trials w)
    as (tr & out & -> & _ & Hloop).
  apply loop_started in Hloop as (_ & Hle & _).
  rewrite count_if_app. unfold range_len in Hle.
  change (count_if is_reduce tr) with (count_if (starts_trial (Some objs)) tr).
  simpl. exact Hle.
Qed.

(** X11: a run without arguments.  With [sys.argv] holding the script name
    alone, nothing is printed or parsed: lines 80-113 make no interaction
    and the run has distance [2], [primal], [open], [delta = 0.01],
    [p_swap = 0.5], a hundred trials and [passive] true; the reducer is
    called at most a hundred times, and a run that returns called the
    decoder a hundred times. *)
Theorem no_argument_runs_the_defaults {W : Type} (M : main_env W)
    (argv : list string) (w : W) (fs : gmap string (list (list pyval))) :
  length argv = 1%nat ->
  let x := main M argv (w, fs) in
  read_args M argv (w, fs)
  = ([], Returned (RunArgs 2 "primal" "open" delta0 p_swap0 100 true), (w, fs))
  /\ (count_if is_reduce (engine_part (main_trace x)) <= 100)%nat
  /\ (forall u, main_outcome x = Returned u ->
                count_if is_correct (engine_part (main_trace x)) = 100%nat).
Proof.
  intros Hlen x. subst x.
  destruct (read_args_cases M argv w fs) as [(_ & Hr) | (Hne & _)];
    [| contradiction].
  split; [exact Hr |].
  destruct (main_cases M argv w fs)
    as (pre & a & _ & Hpre
        & [(t & e & w' & -> & Ht & _)
          | (w0 & code & g & macro & layer & bs & w1 & etr & eout & w2
             & Hread & _ & _ & Hrun & Hm)]).
  - unfold main_trace, main_outcome; cbn [fst snd].
    rewrite engine_part_app, Hpre, Ht. split; [unfold count_if; simpl; lia |].
    discriminate.
  - rewrite Hr in Hread. injection Hread as <- <- <-.
    cbn [arg_trials arg_delta arg_p_swap] in Hrun.
    pose proof (passive_run_reducer_bound (collaborators M) code 100 delta0
                  p_swap0 [macro; g; layer; bs] w1) as Hb.
    rewrite Hrun in Hb. unfold trace_of in Hb. cbn [fst snd] in Hb.
    destruct eout as [errors | e].
    + destruct Hm as (fs' & _ & ->). unfold main_trace, main_outcome.
      cbn [fst snd].
      rewrite !engine_part_app, engine_part_engine, engine_part_setup.
      cbn [engine_part omap app]. rewrite app_nil_r.
      apply passive_run_returned in Hrun as (_ & _ & Hred & Hcor).
      change (engine_part [] ++ etr) with etr.
      rewrite Hred, Hcor. split; [simpl; lia | reflexivity].
    + rewrite Hm. unfold main_trace, main_outcome. cbn [fst snd].
      rewrite !engine_part_app, engine_part_engine, engine_part_setup.
      change (engine_part [] ++ [] ++ etr) with etr.
      split; [| discriminate]. simpl in Hb. exact Hb.
Qed.

Lemma no_argument_runs_the_defaults_witness :
  length ["simulations.py"] = 1%nat
  /\ (count_if is_reduce
        (engine_part
           (main_trace (main stub_main_env ["simulations.py"] (stub_start [], ∅))))
      <= 100)%nat.
Proof.
  split; [reflexivity |].
  exact (proj1 (proj2 (no_argument_runs_the_defaults stub_main_env
                         ["simulations.py"] (stub_start []) ∅ eq_refl))).
Defined.


